(** * Frequency-plan synthesis of the IDT 8T49N24x clock driver (src/xfmc/idt.c)

    A shallow embedding of [idt_get_int_divtable], [idt_cal_settings], the
    register encoders and [set_clock], with the C integer conversions written
    out, followed by the properties of the frequency plan and of the
    register-write sequence. *)

From Stdlib Require Import ZArith List Bool Lia.
Import ListNotations.
Local Open Scope Z_scope.

(** ** C integer types

    [int] is 32-bit two's complement, [u32]/[unsigned int] 32-bit, [u64]
    64-bit.  The kernel is built with wrapping signed arithmetic, so every
    result is reduced into the range of its type.  Signed division and
    remainder truncate toward zero ([Z.quot], [Z.rem]). *)
Module CInt.

Definition to_u8 (z : Z) : Z := z mod 2 ^ 8.
Definition to_u16 (z : Z) : Z := z mod 2 ^ 16.
Definition to_u32 (z : Z) : Z := z mod 2 ^ 32.
Definition to_u64 (z : Z) : Z := z mod 2 ^ 64.
Definition to_int (z : Z) : Z := (z + 2 ^ 31) mod 2 ^ 32 - 2 ^ 31.

(** the kernel's [abs] on an [int]: [-INT_MIN] wraps back to [INT_MIN] *)
Definition c_abs (z : Z) : Z := to_int (Z.abs z).

End CInt.
Import CInt.

(** ** Outcomes

    The C functions either run to their [return] or hit behaviour the
    language leaves undefined; the latter is kept apart as a [Fault]. *)
Inductive fault : Type :=
| DivideByZero        (* [/] or [%] with a zero divisor *)
| TableOverrun        (* a store past the end of [divtbl[20]] *)
| UninitialisedRead.  (* a read of a local that was never assigned *)

Inductive result (A : Type) : Type :=
| Ok (a : A)
| Fault (f : fault).
Arguments Ok {A} a.
Arguments Fault {A} f.

Definition bind {A B : Type} (r : result A) (k : A -> result B) : result B :=
  match r with
  | Ok a => k a
  | Fault f => Fault f
  end.

Notation "x <- r ;; k" := (bind r (fun x => k))
  (at level 61, r at next level, right associativity).

Definition of_option {A : Type} (o : option A) : result A :=
  match o with
  | Some a => Ok a
  | None => Fault UninitialisedRead
  end.

(** ** Device constants (the [#define]s of idt.c) *)
Definition IDT_8T49N24X_XTAL_FREQ : Z := 40000000.
Definition IDT_8T49N24X_FVCO_MAX : Z := 4000000000.
Definition IDT_8T49N24X_FVCO_MIN : Z := 3000000000.
Definition IDT_8T49N24X_FOUT_MAX : Z := 400000000.
Definition IDT_8T49N24X_FOUT_MIN : Z := 8000.
Definition IDT_8T49N24X_FIN_MAX : Z := 875000000.
Definition IDT_8T49N24X_FIN_MIN : Z := 8000.
Definition IDT_8T49N24X_FPD_MAX : Z := 128000.
Definition IDT_8T49N24X_P_MAX : Z := 4194304.
Definition IDT_8T49N24X_M_MAX : Z := 16777216.

(** ** [idt_get_int_divtable] *)

Definition ns1_opts : list Z := [1; 4; 5; 6].

(** [outdiv_tmp] for one [(ns1, ns2_tmp)] pair; the product is an [int]. *)
Definition outdiv_of (ns2_tmp opt : Z) : Z :=
  if ns2_tmp =? 0 then opt else to_int (to_int (opt * ns2_tmp) * 2).

(** [vco_tmp = freq_out * outdiv_tmp], an [int] product stored in a [u32],
    compared with the two (64-bit) VCO limits. *)
Definition vco_in_range (freq_out outdiv_tmp : Z) : bool :=
  let vco_tmp := to_u32 (freq_out * outdiv_tmp) in
  (vco_tmp <=? IDT_8T49N24X_FVCO_MAX) && (IDT_8T49N24X_FVCO_MIN <=? vco_tmp).

(** the inner [for] over the NS1 options: the entries stored for one
    [ns2_tmp], in the order they are stored *)
Definition divtable_row (freq_out ns2_tmp : Z) (opts : list Z) : list Z :=
  filter (vco_in_range freq_out) (map (outdiv_of ns2_tmp) opts).

(** the [while (ns2_tmp <= ns2_max)] loop; [ns2_tmp] stays below [2^28 + 1],
    so the increment never wraps *)
Fixpoint divtable_loop (fuel : nat) (freq_out : Z) (opts : list Z)
    (ns2_tmp ns2_max : Z) : list Z :=
  match fuel with
  | O => []
  | S fuel' =>
      if ns2_tmp <=? ns2_max
      then divtable_row freq_out ns2_tmp opts
             ++ divtable_loop fuel' freq_out opts (ns2_tmp + 1) ns2_max
      else []
  end.

Definition outdiv_min_of (freq_out : Z) : Z :=
  to_int (Z.quot IDT_8T49N24X_FVCO_MIN freq_out
          + (if Z.rem IDT_8T49N24X_FVCO_MIN freq_out =? 0 then 0 else 1)).

Definition outdiv_max_of (freq_out : Z) : Z :=
  to_int (Z.quot IDT_8T49N24X_FVCO_MAX freq_out).

(** the NS2 range [(ns2_min, ns2_max)] the enumeration runs over *)
Definition ns2_range (freq_out : Z) (index : nat) : Z * Z :=
  let outdiv_min := outdiv_min_of freq_out in
  let outdiv_max := outdiv_max_of freq_out in
  if existsb (fun o => (o =? outdiv_min) || (o =? outdiv_max))
             (skipn index ns1_opts)
  then (0, 0)
  else
    let ns2_min :=
      Z.quot (Z.quot outdiv_min (nth 3 ns1_opts 0)) 2
      + (if Z.rem (Z.quot outdiv_min (nth 3 ns1_opts 0)) 2 =? 0 then 0 else 1) in
    let ns2_max := Z.quot (Z.quot outdiv_max (nth index ns1_opts 0)) 2 in
    (ns2_min, if ns2_max =? 0 then 1 else ns2_max).

(** The entries written through [divtbl_ptr], in order; the returned [cnt]
    is the length of this list.  [freq_out] is an [int]; dividing the VCO
    limits by a zero [freq_out] is undefined. *)
Definition idt_get_int_divtable (freq_out : Z) (bypass : bool) : result (list Z) :=
  if freq_out =? 0 then Fault DivideByZero
  else
    let index := if bypass then 0%nat else 1%nat in
    let '(ns2_min, ns2_max) := ns2_range freq_out index in
    Ok (divtable_loop (Z.to_nat (ns2_max + 1 - ns2_min)) freq_out
          (skipn index ns1_opts) ns2_min ns2_max).

(** ** [idt_cal_settings] *)

Record idt_settings : Type := {
  dsm_frac : Z;   (* u32 *)
  m1_x : Z;       (* u32 *)
  pre_x : Z;      (* u32 *)
  los_x : Z;      (* u32 *)
  n_qx : Z;       (* u32 *)
  nfrac_qx : Z;   (* u32 *)
  ns2_qx : Z;     (* u16 *)
  dsm_int : Z;    (* u16 *)
  ns1_qx : Z      (* u8 *)
}.

(** "Find the highest divider": [max_div] starts at 0. *)
Definition max_div_of (divtbl : list Z) : Z :=
  fold_left (fun max_div d => if max_div <? d then d else max_div) divtbl 0.

(** The three sequential [if]s that pick the NS1 register value.  The local
    [ns1] has no initialiser: [None] is "never assigned". *)
Definition ns1_select (max_div : Z) : option Z :=
  let ns1 := None in
  let ns1 := if (max_div =? 4) || (Z.rem max_div 8 =? 0) then Some 2 else ns1 in
  let ns1 := if (max_div =? 5) || (Z.rem max_div 10 =? 0) then Some 0 else ns1 in
  let ns1 := if (max_div =? 6) || (Z.rem max_div 12 =? 0) then Some 1 else ns1 in
  ns1.

(** the [switch (ns1)] *)
Definition ns1_ratio_of (ns1 : Z) : Z :=
  if ns1 =? 0 then 5
  else if ns1 =? 1 then 6
  else if ns1 =? 2 then 4
  else if ns1 =? 3 then 1
  else 6.

(** The output-divider split [(n_q2, nfrac_q2)], both [u32]. *)
Definition outdiv_split (max_div : Z) : Z * Z :=
  let frac_numerator :=
    if Z.land max_div 1 =? 0 then 0 else Z.shiftr 268435456 1 in
  if Z.land max_div 1 =? 0
  then (to_u32 (Z.shiftr max_div 1), 0)
  else (to_u32 (Z.shiftr (to_int (max_div + 1)) 1), frac_numerator).

(** The upper-loop feedback divider [(dsm_int, dsm_frac)]: [fvco] is an
    [unsigned int], the divisor is twice the crystal frequency. *)
Definition upper_fb_split (fvco : Z) : Z * Z :=
  let UpperFBDiv := fvco / to_u32 (2 * IDT_8T49N24X_XTAL_FREQ) in
  let UpperFBDiv_rem := fvco mod to_u32 (2 * IDT_8T49N24X_XTAL_FREQ) in
  let dsm_int := to_int UpperFBDiv in
  let dsm_frac := to_u64 (to_u64 (UpperFBDiv_rem * 2048) + Z.shiftr 78125 1) in
  let dsm_frac := dsm_frac / 78125 in
  (dsm_int, dsm_frac).

(** *** The lower-loop search *)

(** state carried by the [for] loop over [i] *)
Record scan_state : Type := {
  error : Z;                 (* int, starts at 99999999 *)
  m1_default : option Z;     (* int, no initialiser *)
  p_default : option Z       (* int, no initialiser *)
}.

Definition scan_init : scan_state :=
  {| error := 99999999; m1_default := None; p_default := None |}.

(** [m1] for the pre-divider [i]: a [u64] computation *)
Definition scan_m1 (fvco freq_in i : Z) : result Z :=
  let m1 := to_u64 (fvco * to_u64 i) in
  let m1 := to_u64 (m1 + to_u64 (Z.shiftr freq_in 1)) in
  if to_u64 freq_in =? 0 then Fault DivideByZero
  else Ok (m1 / to_u64 freq_in).

(** [error_tmp] for the pair [(i, m1)] *)
Definition scan_error_tmp (fvco freq_in i m1 : Z) : result Z :=
  let temp :=
    to_u64 (to_u64 (to_u64 (fvco * to_u64 i) - to_u64 (m1 * to_u64 freq_in))
            * 1000000) in
  let temp1 := to_u64 (to_u64 i * to_u64 freq_in) / 1000 in
  if temp1 =? 0 then Fault DivideByZero
  else Ok (to_int (temp / temp1)).

Inductive scan_next : Type :=
| Continue (st : scan_state)
| Break (st : scan_state).

(** one pass through the loop body *)
Definition scan_body (fvco freq_in i : Z) (st : scan_state) : result scan_next :=
  m1 <- scan_m1 fvco freq_in i ;;
  if m1 <? IDT_8T49N24X_M_MAX then
    error_tmp <- scan_error_tmp fvco freq_in i m1 ;;
    if (c_abs error_tmp <? error st) || (error_tmp =? 0) then
      let st' := {| error := c_abs error_tmp;
                    m1_default := Some (to_int m1);
                    p_default := Some i |} in
      if error_tmp =? 0 then Ok (Break st') else Ok (Continue st')
    else Ok (Continue st)
  else Ok (Break st).

(** [for (i = ...; i <= IDT_8T49N24X_P_MAX; i++)] *)
Fixpoint scan_loop (fuel : nat) (fvco freq_in i : Z) (st : scan_state)
    : result scan_state :=
  match fuel with
  | O => Ok st
  | S fuel' =>
      if i <=? IDT_8T49N24X_P_MAX then
        next <- scan_body fvco freq_in i st ;;
        match next with
        | Break st' => Ok st'
        | Continue st' => scan_loop fuel' fvco freq_in (i + 1) st'
        end
      else Ok st
  end.

Definition p_min_of (freq_in : Z) : Z := Z.quot freq_in IDT_8T49N24X_FPD_MAX.

Definition feedback_scan (fvco freq_in : Z) : result scan_state :=
  let p_min := p_min_of freq_in in
  scan_loop (Z.to_nat (IDT_8T49N24X_P_MAX + 1 - p_min)) fvco freq_in p_min
            scan_init.

(** "Calculate los" *)
Definition los_of (fvco freq_in : Z) : result Z :=
  if to_u32 freq_in =? 0 then Fault DivideByZero
  else
    let los := to_int (fvco / 8 / to_u32 freq_in) in
    let los := to_int (los + 3) in
    Ok (if los <? 6 then 6 else los).

(** [freq_in] and [freq_out] are [int]s.  The function has a single
    [return 0]; [Ok] is that return together with the filled [*settings]. *)
Definition idt_cal_settings (freq_in freq_out : Z) : result idt_settings :=
  divtbl <- idt_get_int_divtable freq_out false ;;
  if (20 <? Z.of_nat (length divtbl)) then Fault TableOverrun
  else
    let max_div := max_div_of divtbl in
    let fvco := to_u32 (freq_out * max_div) in
    ns1 <- of_option (ns1_select max_div) ;;
    let ns1_ratio := ns1_ratio_of ns1 in
    let ns2_ratio := Z.quot max_div ns1_ratio in
    let ns2 := Z.quot ns2_ratio 2 in
    let '(n_q2, nfrac_q2) := outdiv_split max_div in
    let '(dsm_int, dsm_frac) := upper_fb_split fvco in
    st <- feedback_scan fvco freq_in ;;
    los <- los_of fvco freq_in ;;
    m1_default <- of_option (m1_default st) ;;
    p_default <- of_option (p_default st) ;;
    Ok {| ns1_qx := to_u8 ns1;
          ns2_qx := to_u16 ns2;
          n_qx := n_q2;
          nfrac_qx := nfrac_q2;
          dsm_int := to_u16 dsm_int;
          dsm_frac := to_u32 dsm_frac;
          m1_x := to_u32 m1_default;
          pre_x := to_u32 p_default;
          los_x := to_u32 los |}.

(** ** The register transport

    [regmap_read] and [regmap_write] belong to the kernel, not to this
    driver.  They are taken as an arbitrary device: what a read leaves in
    [data] and the status a write returns may depend on the address, the
    value and every write issued before. *)
Definition reg_write : Type := (Z * Z)%type.   (* (address, value) *)

Record regmap : Type := {
  regmap_read : list reg_write -> Z -> Z;
  regmap_write : list reg_write -> Z -> Z -> Z
}.

(** Driver code that talks to the device: it threads the log of the writes
    issued so far, oldest first. *)
Definition io (A : Type) : Type := list reg_write -> result (A * list reg_write).

Definition io_ret {A : Type} (a : A) : io A := fun log => Ok (a, log).

Definition io_bind {A B : Type} (m : io A) (k : A -> io B) : io B :=
  fun log =>
    match m log with
    | Ok (a, log') => k a log'
    | Fault f => Fault f
    end.

Definition io_lift {A : Type} (r : result A) : io A :=
  fun log => match r with Ok a => Ok (a, log) | Fault f => Fault f end.

Notation "x <~ m ;; k" := (io_bind m (fun x => k))
  (at level 61, m at next level, right associativity).

Section Driver.

Variable bus : regmap.

(** [addr] is a [u16] and [val] a [u8]; the status of [regmap_write] is
    returned as it is. *)
Definition idt_write_reg (addr val : Z) : io Z :=
  fun log =>
    let addr := to_u16 addr in
    let val := to_u8 val in
    Ok (regmap_write bus log addr val, log ++ [(addr, val)]).

Definition idt_pre_div (val input : Z) : io Z :=
  let addr := if input =? 1 then 0x000e else 0x000b in
  _ <~ idt_write_reg addr (Z.land (Z.shiftr val 16) 0x1f) ;;
  _ <~ idt_write_reg (addr + 1) (Z.shiftr val 8) ;;
  ret <~ idt_write_reg (addr + 2) (Z.land val 0xff) ;;
  io_ret ret.

Definition idt_m1_feedback (val input : Z) : io Z :=
  let addr := if input =? 1 then 0x0011 else 0x0014 in
  _ <~ idt_write_reg addr (Z.shiftr val 16) ;;
  _ <~ idt_write_reg (addr + 1) (Z.shiftr val 8) ;;
  ret <~ idt_write_reg (addr + 2) (Z.land val 0xff) ;;
  io_ret ret.

Definition idt_dsm_int (val : Z) : io Z :=
  _ <~ idt_write_reg 0x0025 (Z.land (Z.shiftr val 8) 0x01) ;;
  ret <~ idt_write_reg 0x0026 (Z.land val 0xff) ;;
  io_ret ret.

Definition idt_dsm_frac (val : Z) : io Z :=
  _ <~ idt_write_reg 0x0028 (Z.land (Z.shiftr val 16) 0x1f) ;;
  _ <~ idt_write_reg 0x0029 (Z.shiftr val 8) ;;
  ret <~ idt_write_reg 0x002a (Z.land val 0xff) ;;
  io_ret ret.

(** the [switch (output)] has no [default]: [addr] stays unassigned for an
    output above 3 *)
Definition outdiv_int_addr (output : Z) : option Z :=
  if output =? 0 then Some 0x003f
  else if output =? 1 then Some 0x0042
  else if output =? 2 then Some 0x0045
  else if output =? 3 then Some 0x0048
  else None.

Definition idt_outdiv_int (val output : Z) : io Z :=
  addr <~ io_lift (of_option (outdiv_int_addr output)) ;;
  _ <~ idt_write_reg addr (Z.land (Z.shiftr val 16) 0x03) ;;
  _ <~ idt_write_reg (addr + 1) (Z.shiftr val 8) ;;
  ret <~ idt_write_reg (addr + 2) (Z.land val 0xff) ;;
  io_ret ret.

Definition outdiv_frac_addr (output : Z) : option Z :=
  if output =? 0 then Some 0x0000
  else if output =? 1 then Some 0x0057
  else if output =? 2 then Some 0x005b
  else if output =? 3 then Some 0x005f
  else None.

Definition idt_outdiv_frac (val output : Z) : io Z :=
  addr <~ io_lift (of_option (outdiv_frac_addr output)) ;;
  _ <~ idt_write_reg addr (Z.land (Z.shiftr val 24) 0x0f) ;;
  _ <~ idt_write_reg (addr + 1) (Z.shiftr val 16) ;;
  _ <~ idt_write_reg (addr + 2) (Z.shiftr val 8) ;;
  ret <~ idt_write_reg (addr + 3) (Z.land val 0xff) ;;
  io_ret ret.

(** read-modify-write; the status of the read is not looked at *)
Definition idt_modify_reg (addr val mask : Z) : io Z :=
  fun log =>
    let data := regmap_read bus log (to_u16 addr) in
    let data := Z.land data (Z.lnot mask) in
    let data := Z.lor data (Z.land val mask) in
    idt_write_reg addr data log.

Definition idt_set_mode (synthesizer : bool) : io Z :=
  let val :=
    if synthesizer
    then Z.lor (Z.lor 0x01 (Z.shiftl 1 4)) (Z.shiftl 1 5)
    else Z.lor 0x00 (Z.shiftl 1 5) in
  let mask := 0x33 in
  _ <~ idt_modify_reg 0x000a val mask ;;
  let val := if synthesizer then Z.shiftl 1 3 else 0x00 in
  let mask := Z.shiftl 1 3 in
  ret <~ idt_modify_reg 0x0069 val mask ;;
  io_ret ret.

Definition idt_in_monitor_ctrl (val input : Z) : io Z :=
  let addr := if input =? 1 then 0x0074 else 0x0071 in
  _ <~ idt_write_reg addr (Z.land (Z.shiftr val 16) 0x1) ;;
  _ <~ idt_write_reg (addr + 1) (Z.shiftr val 8) ;;
  ret <~ idt_write_reg (addr + 2) (Z.land val 0xff) ;;
  io_ret ret.

Definition idt_ref_input (input : Z) (enable : bool) : io Z :=
  let shift := if input =? 1 then 5 else 4 in
  let val := if enable then 0x00 else Z.shiftl 1 shift in
  let mask := Z.shiftl 1 shift in
  ret <~ idt_modify_reg 0x000a val mask ;;
  io_ret ret.

(** the two range tests at the head of [set_clock], as written: both
    comparisons joined by [&&] *)
Definition freq_in_rejected (freq_in : Z) : bool :=
  (freq_in <? IDT_8T49N24X_FIN_MIN) && (IDT_8T49N24X_FIN_MAX <? freq_in).

Definition freq_out_rejected (freq_out : Z) : bool :=
  (freq_out <? IDT_8T49N24X_FOUT_MIN) && (IDT_8T49N24X_FOUT_MAX <? freq_out).

(** what comes after the two range tests: the settings calculation and the
    write sequence *)
Definition set_clock_program (freq_in freq_out : Z) : io Z :=
  settings <~ io_lift (idt_cal_settings (to_int freq_in) (to_int freq_out)) ;;
  _ <~ idt_write_reg 0x0070 0x05 ;;
  _ <~ idt_ref_input 0 false ;;
  _ <~ idt_ref_input 1 false ;;
  _ <~ idt_set_mode true ;;
  _ <~ idt_pre_div (pre_x settings) 0 ;;
  _ <~ idt_pre_div (pre_x settings) 1 ;;
  _ <~ idt_m1_feedback (m1_x settings) 0 ;;
  _ <~ idt_m1_feedback (m1_x settings) 1 ;;
  _ <~ idt_dsm_int (dsm_int settings) ;;
  _ <~ idt_dsm_frac (dsm_frac settings) ;;
  _ <~ idt_outdiv_int (n_qx settings) 2 ;;
  _ <~ idt_outdiv_int (n_qx settings) 3 ;;
  _ <~ idt_outdiv_frac (nfrac_qx settings) 2 ;;
  _ <~ idt_outdiv_frac (nfrac_qx settings) 3 ;;
  _ <~ idt_in_monitor_ctrl (los_x settings) 0 ;;
  _ <~ idt_in_monitor_ctrl (los_x settings) 1 ;;
  ret <~ idt_write_reg 0x0070 0x00 ;;
  io_ret ret.

(** [freq_in] and [freq_out] are [u32]s.  The result is the returned [int]
    and the writes issued, starting from an empty log. *)
Definition set_clock (freq_in freq_out : Z) : result (Z * list reg_write) :=
  if freq_in_rejected freq_in then Ok (1, [])
  else if freq_out_rejected freq_out then Ok (1, [])
  else set_clock_program freq_in freq_out [].

End Driver.

(** a device on which every read returns 0 and every write succeeds *)
Definition quiet_bus : regmap :=
  {| regmap_read := fun _ _ => 0; regmap_write := fun _ _ _ => 0 |}.

(** a device on which every write but the one to the calibration register
    fails with [-5] (the kernel's [-EIO]) *)
Definition flaky_bus : regmap :=
  {| regmap_read := fun _ _ => 0;
     regmap_write := fun _ addr _ => if addr =? 0x0070 then 0 else -5 |}.

(** ** Definitions that follow the specification's wording

    Used only to compare the specification's formulas with what the code
    computes. *)
Module Spec.

(** [ceil(a / b)] for positive [b] *)
Definition ceil_div (a b : Z) : Z := (a + b - 1) / b.

(** round-half-up of the fraction [n / d] *)
Definition round_div (n d : Z) : Z := (2 * n + d) / (2 * d).

(** section 4.2: [p_min = ceil(reference_hz / FPD_MAX)] *)
Definition p_min (reference_hz : Z) : Z := ceil_div reference_hz 128000.

(** section 4.3: the DSM split taken from [reference_hz] *)
Definition dsm_split (reference_hz vco_hz : Z) : Z * Z :=
  let quotient := vco_hz / (2 * reference_hz) in
  let remainder := vco_hz mod (2 * reference_hz) in
  (quotient, round_div (remainder * 2 ^ 21) (reference_hz * 2)).

(** section 4.2: the normalized error in parts per million *)
Definition error_ppm (vco_hz reference_hz p m : Z) : Z :=
  Z.abs (vco_hz * p - m * reference_hz) * 1000000 / (p * reference_hz).

End Spec.

(** ** Shape of a write sequence

    A pattern lists, per write, the address and, where it does not depend on
    what the device returned to a read, the value. *)
Definition write_pattern : Type := (Z * option Z)%type.

Definition fits (w : reg_write) (p : write_pattern) : Prop :=
  fst w = fst p /\ match snd p with Some v => snd w = v | None => True end.

(** [m] issues at least one write, the writes fit [pat] whatever the device
    answers, and [m] returns the status of the last of them. *)
Definition emits (bus : regmap) (m : io Z) (pat : list write_pattern) : Prop :=
  forall log, exists ws w,
    m log = Ok (regmap_write bus (log ++ ws) (fst w) (snd w), log ++ ws ++ [w])
    /\ Forall2 fits (ws ++ [w]) pat.

(** [vals] written to consecutive addresses starting at [addr] *)
Fixpoint at_addr (addr : Z) (vals : list Z) : list write_pattern :=
  match vals with
  | [] => []
  | v :: vs => (addr, Some (to_u8 v)) :: at_addr (addr + 1) vs
  end.

(** the writes between the two calibration writes: three read-modify-writes
    of 0x000a, one of 0x0069, then the fields of [s] *)
Definition programming_pattern (s : idt_settings) : list write_pattern :=
  [(0x000a, None); (0x000a, None); (0x000a, None); (0x0069, None)]
  ++ at_addr 0x000b [Z.land (Z.shiftr (pre_x s) 16) 0x1f;
                     Z.shiftr (pre_x s) 8; Z.land (pre_x s) 0xff]
  ++ at_addr 0x000e [Z.land (Z.shiftr (pre_x s) 16) 0x1f;
                     Z.shiftr (pre_x s) 8; Z.land (pre_x s) 0xff]
  ++ at_addr 0x0014 [Z.shiftr (m1_x s) 16; Z.shiftr (m1_x s) 8;
                     Z.land (m1_x s) 0xff]
  ++ at_addr 0x0011 [Z.shiftr (m1_x s) 16; Z.shiftr (m1_x s) 8;
                     Z.land (m1_x s) 0xff]
  ++ at_addr 0x0025 [Z.land (Z.shiftr (dsm_int s) 8) 0x01;
                     Z.land (dsm_int s) 0xff]
  ++ at_addr 0x0028 [Z.land (Z.shiftr (dsm_frac s) 16) 0x1f;
                     Z.shiftr (dsm_frac s) 8; Z.land (dsm_frac s) 0xff]
  ++ at_addr 0x0045 [Z.land (Z.shiftr (n_qx s) 16) 0x03;
                     Z.shiftr (n_qx s) 8; Z.land (n_qx s) 0xff]
  ++ at_addr 0x0048 [Z.land (Z.shiftr (n_qx s) 16) 0x03;
                     Z.shiftr (n_qx s) 8; Z.land (n_qx s) 0xff]
  ++ at_addr 0x005b [Z.land (Z.shiftr (nfrac_qx s) 24) 0x0f;
                     Z.shiftr (nfrac_qx s) 16; Z.shiftr (nfrac_qx s) 8;
                     Z.land (nfrac_qx s) 0xff]
  ++ at_addr 0x005f [Z.land (Z.shiftr (nfrac_qx s) 24) 0x0f;
                     Z.shiftr (nfrac_qx s) 16; Z.shiftr (nfrac_qx s) 8;
                     Z.land (nfrac_qx s) 0xff]
  ++ at_addr 0x0071 [Z.land (Z.shiftr (los_x s) 16) 0x1;
                     Z.shiftr (los_x s) 8; Z.land (los_x s) 0xff]
  ++ at_addr 0x0074 [Z.land (Z.shiftr (los_x s) 16) 0x1;
                     Z.shiftr (los_x s) 8; Z.land (los_x s) 0xff].

(** the addresses of those 41 writes *)
Definition programming_addrs : list Z :=
  [0x0a; 0x0a; 0x0a; 0x69;
   0x0b; 0x0c; 0x0d; 0x0e; 0x0f; 0x10;
   0x14; 0x15; 0x16; 0x11; 0x12; 0x13;
   0x25; 0x26; 0x28; 0x29; 0x2a;
   0x45; 0x46; 0x47; 0x48; 0x49; 0x4a;
   0x5b; 0x5c; 0x5d; 0x5e; 0x5f; 0x60; 0x61; 0x62;
   0x71; 0x72; 0x73; 0x74; 0x75; 0x76].

(** what the loop guarantees about a recorded pair: the pre-divider lies
    between the start of the scan and [P_MAX], the multiplier below [M_MAX] *)
Definition recorded_in_bounds (lo : Z) (st : scan_state) : Prop :=
  (forall p, p_default st = Some p -> lo <= p <= IDT_8T49N24X_P_MAX)
  /\ (forall m, m1_default st = Some m -> 0 <= m < IDT_8T49N24X_M_MAX).

(** ** [idt_init] *)

(** the jitter-attenuator configuration, register by register from
    address 0, twelve registers to a row as in the source *)
Definition IDT_8T49N24x_Config_JA : list Z :=
  [0xFF; 0xFF; 0xFF; 0xFF; 0xFF; 0xFE; 0xEF; 0x00; 0x03; 0x00; 0x20; 0x00] ++
  [0x04; 0x89; 0x00; 0x00; 0x01; 0x00; 0x63; 0xC6; 0x07; 0x00; 0x00; 0x77] ++
  [0x6D; 0x00; 0x00; 0x00; 0x00; 0x00; 0x00; 0xFF; 0xFF; 0xFF; 0xFF; 0x01] ++
  [0x3F; 0x00; 0x28; 0x00; 0x1A; 0xCC; 0xCD; 0x00; 0x01; 0x00; 0x00; 0xD0] ++
  [0x08; 0x00; 0x00; 0x00; 0x00; 0x00; 0x08; 0x00; 0x00; 0x0C; 0x00; 0x00] ++
  [0x00; 0x44; 0x44; 0x00; 0x00; 0x00; 0x00; 0x00; 0x00; 0x00; 0x00; 0x0B] ++
  [0x00; 0x00; 0x0B; 0x00; 0x00; 0x00; 0x00; 0x00; 0x00; 0x00; 0x00; 0x00] ++
  [0x00; 0x00; 0x00; 0x00; 0x00; 0x00; 0x00; 0x00; 0x00; 0x00; 0x00; 0x00] ++
  [0x00; 0x00; 0x00; 0x00; 0x00; 0x00; 0x00; 0x00; 0x89; 0x02; 0x2B; 0x20] ++
  [0x00; 0x00; 0x00; 0x03; 0x00; 0x00; 0x00; 0x06; 0x00; 0x00; 0x00; 0x00] ++
  [0x00; 0x00; 0x27; 0x00; 0x00; 0x00; 0x00; 0x00; 0x00; 0x00; 0x00; 0x00].

Section DriverInit.

Variable bus : regmap.

(** the [for] loop over [Index]: every table byte but the one for 0x70 goes
    to the register of the same address; the write statuses are dropped *)
Fixpoint idt_init_loop (fuel : nat) (Index : Z) : io Z :=
  match fuel with
  | O => io_ret 0
  | S fuel' =>
      if Index <? Z.of_nat (length IDT_8T49N24x_Config_JA) then
        if negb (Index =? 0x070) then
          _ <~ idt_write_reg bus Index
                 (nth (Z.to_nat Index) IDT_8T49N24x_Config_JA 0) ;;
          idt_init_loop fuel' (Index + 1)
        else idt_init_loop fuel' (Index + 1)
      else io_ret 0
  end.

Definition idt_init : io Z :=
  _ <~ idt_write_reg bus 0x0070 0x05 ;;
  _ <~ idt_init_loop (length IDT_8T49N24x_Config_JA) 8 ;;
  _ <~ idt_write_reg bus 0x0070 0x00 ;;
  io_ret 0.

End DriverInit.

(** the writes of [idt_init] between its two calibration writes, listed by
    address *)
Definition config_writes : list reg_write :=
  map (fun a => (a, nth (Z.to_nat a) IDT_8T49N24x_Config_JA 0))
      (filter (fun a => negb (a =? 0x70))
              (map Z.of_nat (seq 8 (length IDT_8T49N24x_Config_JA - 8)))).

(** ** The device seen from the write log *)

(** the value last written to [addr], if any write went there *)
Fixpoint last_write (log : list reg_write) (addr : Z) : option Z :=
  match log with
  | [] => None
  | w :: rest =>
      match last_write rest addr with
      | Some v => Some v
      | None => if fst w =? addr then Some (snd w) else None
      end
  end.

(** the bytes last written to [addrs], read as one number, first address
    most significant *)
Definition read_field (log : list reg_write) (addrs : list Z) : option Z :=
  fold_left
    (fun acc a =>
       match acc, last_write log a with
       | Some hi, Some b => Some (hi * 256 + b)
       | _, _ => None
       end)
    addrs (Some 0).

(** the same lookup on a pattern: [Some None] is a write whose value the
    pattern leaves open *)
Fixpoint pattern_last (pat : list write_pattern) (addr : Z)
    : option (option Z) :=
  match pat with
  | [] => None
  | p :: rest =>
      match pattern_last rest addr with
      | Some v => Some v
      | None => if fst p =? addr then Some (snd p) else None
      end
  end.

(** a device that keeps what is written to it: a read returns the value
    last written to the address, or [init] when nothing was written there *)
Definition register_file (init : Z -> Z) : regmap :=
  {| regmap_read := fun log addr =>
       match last_write log addr with Some v => v | None => init addr end;
     regmap_write := fun _ _ _ => 0 |}.

(** ** What the lower-loop search keeps track of *)

(** the [error_tmp] the pass for pre-divider [p] computes, when the pass gets
    as far as computing one *)
Definition pass_error (fvco freq_in p : Z) : option Z :=
  match scan_m1 fvco freq_in p with
  | Ok m1 =>
      if m1 <? IDT_8T49N24X_M_MAX then
        match scan_error_tmp fvco freq_in p m1 with
        | Ok e => Some e
        | Fault _ => None
        end
      else None
  | Fault _ => None
  end.

(** the loop state before the pass for [i], the scan having started at [lo] *)
Definition scan_inv (fvco freq_in lo i : Z) (st : scan_state) : Prop :=
  (forall p', lo <= p' < i ->
     exists e', pass_error fvco freq_in p' = Some e' /\ e' <> 0
                /\ error st <= c_abs e')
  /\ match p_default st with
     | None => m1_default st = None
     | Some p =>
         lo <= p < i /\ p <= IDT_8T49N24X_P_MAX
         /\ exists m1 e,
              scan_m1 fvco freq_in p = Ok m1 /\ 0 <= m1 < IDT_8T49N24X_M_MAX
              /\ m1_default st = Some (to_int m1)
              /\ scan_error_tmp fvco freq_in p m1 = Ok e
              /\ error st = c_abs e
              /\ forall p', lo <= p' < p ->
                   exists e', pass_error fvco freq_in p' = Some e'
                              /\ c_abs e < c_abs e'
     end.

(** the loop state the scan ends in *)
Definition scan_post (fvco freq_in lo : Z) (st : scan_state) : Prop :=
  match p_default st with
  | None => m1_default st = None
  | Some p =>
      lo <= p <= IDT_8T49N24X_P_MAX
      /\ exists m1 e,
           scan_m1 fvco freq_in p = Ok m1 /\ 0 <= m1 < IDT_8T49N24X_M_MAX
           /\ m1_default st = Some (to_int m1)
           /\ scan_error_tmp fvco freq_in p m1 = Ok e
           /\ error st = c_abs e
           /\ forall p', lo <= p' < p ->
                exists e', pass_error fvco freq_in p' = Some e' /\ e' <> 0
                           /\ (e = 0 \/ c_abs e < c_abs e')
  end.

(** how far the scan got: [hi] is the last pre-divider whose pass computed an
    error.  Either that error was zero, which ends the scan with that
    pre-divider kept, or the scan went on to the pre-divider limit or to the
    first multiplier that is not below [M_MAX]; then no pass computed a zero
    error or one below the error kept. *)
Definition scan_ended (fvco freq_in lo hi : Z) (st : scan_state) : Prop :=
  hi <= IDT_8T49N24X_P_MAX
  /\ (forall p, p_default st = Some p -> p <= hi)
  /\ ((pass_error fvco freq_in hi = Some 0
       /\ p_default st = Some hi
       /\ forall p', lo <= p' < hi ->
            exists e', pass_error fvco freq_in p' = Some e' /\ e' <> 0)
      \/ ((hi = IDT_8T49N24X_P_MAX
           \/ exists m, scan_m1 fvco freq_in (hi + 1) = Ok m
                        /\ IDT_8T49N24X_M_MAX <= m)
          /\ forall p', lo <= p' <= hi ->
               exists e', pass_error fvco freq_in p' = Some e' /\ e' <> 0
                          /\ error st <= c_abs e')).

(** a kept pair has an error below the one the scan starts with *)
Definition beats_initial (st : scan_state) : Prop :=
  match p_default st with
  | None => error st = error scan_init
  | Some _ => error st < error scan_init
  end.

(** * Proofs *)

(** ** Integer conversions *)

(** unfolds the conversions and hands the goal to linear arithmetic *)
Ltac wrap_lia :=
  unfold c_abs, to_int, to_u8, to_u16, to_u32, to_u64 in *;
  change (2 ^ 8) with 256 in *;
  change (2 ^ 16) with 65536 in *;
  change (2 ^ 31) with 2147483648 in *;
  change (2 ^ 32) with 4294967296 in *;
  change (2 ^ 64) with 18446744073709551616 in *;
  Z.to_euclidean_division_equations; lia.

Lemma to_int_range (z : Z) : -2147483648 <= to_int z < 2147483648.
Proof. wrap_lia. Qed.

Lemma to_int_small (z : Z) : -2147483648 <= z < 2147483648 -> to_int z = z.
Proof. intros H. wrap_lia. Qed.

Lemma to_u32_small (z : Z) : 0 <= z < 4294967296 -> to_u32 z = z.
Proof. intros H. wrap_lia. Qed.

Lemma to_u64_small (z : Z) : 0 <= z < 18446744073709551616 -> to_u64 z = z.
Proof. intros H. wrap_lia. Qed.

Lemma to_u32_range (z : Z) : 0 <= to_u32 z < 4294967296.
Proof. wrap_lia. Qed.

Lemma to_int_double_even (z : Z) : Z.even (to_int (z * 2)) = true.
Proof.
  replace (to_int (z * 2))
    with (2 * (z + 1073741824 - 2147483648 * ((z * 2 + 2147483648) / 4294967296) - 1073741824)).
  - rewrite Z.even_mul. reflexivity.
  - wrap_lia.
Qed.

(** ** The divider table *)

Example divtable_148_5 : idt_get_int_divtable 148500000 false = Ok [24; 24].
Proof. vm_compute. reflexivity. Qed.

Lemma divtable_row_In (freq_out ns2_tmp d : Z) (opts : list Z) :
  In d (divtable_row freq_out ns2_tmp opts) ->
  exists opt,
    In opt opts /\ d = outdiv_of ns2_tmp opt /\ vco_in_range freq_out d = true.
Proof.
  unfold divtable_row. intros H. apply filter_In in H. destruct H as [Hmap Hacc].
  apply in_map_iff in Hmap. destruct Hmap as (opt & <- & Hopt).
  exists opt. repeat split; assumption.
Qed.

Lemma divtable_loop_In (fuel : nat) (freq_out ns2_tmp ns2_max d : Z)
    (opts : list Z) :
  In d (divtable_loop fuel freq_out opts ns2_tmp ns2_max) ->
  exists ns2 opt,
    ns2_tmp <= ns2 <= ns2_max /\ In opt opts
    /\ d = outdiv_of ns2 opt /\ vco_in_range freq_out d = true.
Proof.
  revert ns2_tmp. induction fuel as [|fuel IH]; intros ns2_tmp; cbn.
  - intros [].
  - destruct (Z.leb_spec ns2_tmp ns2_max) as [Hle|Hgt]; [|intros []].
    intros H. apply in_app_or in H. destruct H as [H|H].
    + apply divtable_row_In in H. destruct H as (opt & Hopt & Hd & Hacc).
      exists ns2_tmp, opt. repeat split; try assumption; lia.
    + apply IH in H. destruct H as (ns2 & opt & Hr & Hopt & Hd & Hacc).
      exists ns2, opt. repeat split; try assumption; lia.
Qed.

(** the fuel handed to the [while] loop is enough: with more of it the loop
    stores the same entries *)
Lemma divtable_loop_fuel (fuel extra : nat) (freq_out ns2_tmp ns2_max : Z)
    (opts : list Z) :
  ns2_max + 1 - ns2_tmp <= Z.of_nat fuel ->
  divtable_loop (fuel + extra) freq_out opts ns2_tmp ns2_max
  = divtable_loop fuel freq_out opts ns2_tmp ns2_max.
Proof.
  revert ns2_tmp. induction fuel as [|fuel IH]; intros ns2_tmp Hfuel.
  - destruct extra as [|extra]; cbn; [reflexivity|].
    destruct (Z.leb_spec ns2_tmp ns2_max); [lia|reflexivity].
  - cbn [Nat.add divtable_loop].
    destruct (Z.leb_spec ns2_tmp ns2_max); [|reflexivity].
    rewrite IH by lia. reflexivity.
Qed.

(** every entry of the table built with bypass disabled *)
Lemma divtable_In (freq_out d : Z) (divtbl : list Z) :
  idt_get_int_divtable freq_out false = Ok divtbl ->
  In d divtbl ->
  freq_out <> 0 /\
  exists ns2 opt,
    fst (ns2_range freq_out 1) <= ns2 <= snd (ns2_range freq_out 1)
    /\ In opt [4; 5; 6]
    /\ d = outdiv_of ns2 opt /\ vco_in_range freq_out d = true.
Proof.
  unfold idt_get_int_divtable.
  destruct (Z.eqb_spec freq_out 0) as [|Hnz]; [discriminate|].
  destruct (ns2_range freq_out 1) as [ns2_min ns2_max].
  intros Htbl Hin. injection Htbl as <-.
  split; [exact Hnz|]. apply divtable_loop_In in Hin. exact Hin.
Qed.

(** the NS2 range is either the bypass range or the computed one *)
Lemma ns2_range_cases (freq_out : Z) :
  ns2_range freq_out 1 = (0, 0)
  \/ ns2_range freq_out 1 =
       (Z.quot (Z.quot (outdiv_min_of freq_out) 6) 2
        + (if Z.rem (Z.quot (outdiv_min_of freq_out) 6) 2 =? 0 then 0 else 1),
        if Z.quot (Z.quot (outdiv_max_of freq_out) 4) 2 =? 0 then 1
        else Z.quot (Z.quot (outdiv_max_of freq_out) 4) 2).
Proof.
  unfold ns2_range.
  destruct (existsb _ _); [left|right]; reflexivity.
Qed.

Lemma ns2_range_lower (freq_out : Z) :
  -178956970 <= fst (ns2_range freq_out 1).
Proof.
  destruct (ns2_range_cases freq_out) as [-> | ->]; cbn [fst]; [lia|].
  pose proof (to_int_range (Z.quot IDT_8T49N24X_FVCO_MIN freq_out
    + (if Z.rem IDT_8T49N24X_FVCO_MIN freq_out =? 0 then 0 else 1))) as Hr.
  fold (outdiv_min_of freq_out) in Hr.
  destruct (_ =? 0); Z.to_euclidean_division_equations; lia.
Qed.

Lemma outdiv_max_bound (freq_out : Z) :
  freq_out <= -3 \/ 3 <= freq_out ->
  -1333333333 <= outdiv_max_of freq_out <= 1333333333.
Proof.
  intros H. unfold outdiv_max_of, IDT_8T49N24X_FVCO_MAX.
  assert (Hq : -1333333333 <= Z.quot 4000000000 freq_out <= 1333333333).
  { Z.to_euclidean_division_equations. nia. }
  rewrite to_int_small; lia.
Qed.

Lemma ns2_range_upper (freq_out : Z) :
  freq_out <> 0 -> freq_out <> 2 ->
  snd (ns2_range freq_out 1) <= 166666666.
Proof.
  intros Hnz H2.
  assert (Hcase : freq_out = -2 \/ freq_out = -1 \/ freq_out = 1
                  \/ freq_out <= -3 \/ 3 <= freq_out) by lia.
  destruct Hcase as [-> | [-> | [-> | Hbig]]];
    [vm_compute; discriminate | vm_compute; discriminate
     | vm_compute; discriminate | ].
  destruct (ns2_range_cases freq_out) as [-> | ->]; cbn [snd]; [lia|].
  pose proof (outdiv_max_bound freq_out Hbig) as Hb.
  destruct (_ =? 0); Z.to_euclidean_division_equations; lia.
Qed.

Lemma vco_in_range_bounds (freq_out d : Z) :
  vco_in_range freq_out d = true ->
  3000000000 <= to_u32 (freq_out * d) <= 4000000000.
Proof.
  unfold vco_in_range. intros Hacc.
  apply andb_prop in Hacc. destruct Hacc as [Hmax Hmin].
  apply Z.leb_le in Hmax. apply Z.leb_le in Hmin.
  split; [exact Hmin | exact Hmax].
Qed.

(** an accepted product [ns1 * ns2 * 2] has not wrapped *)
Lemma accepted_product_exact (freq_out ns2 opt : Z) :
  freq_out <> 0 ->
  fst (ns2_range freq_out 1) <= ns2 <= snd (ns2_range freq_out 1) ->
  In opt [4; 5; 6] ->
  ns2 <> 0 ->
  vco_in_range freq_out (outdiv_of ns2 opt) = true ->
  outdiv_of ns2 opt = opt * ns2 * 2.
Proof.
  intros Hnz Hrange Hopt Hns2 Hacc.
  pose proof (ns2_range_lower freq_out) as Hlo.
  unfold outdiv_of in *.
  destruct (Z.eqb_spec ns2 0) as [|_]; [contradiction|].
  destruct (Z.eq_dec freq_out 2) as [-> | H2].
  - assert (Hr2 : ns2_range 2 1 = (125000000, 250000000))
      by (vm_compute; reflexivity).
    rewrite Hr2 in Hrange. cbn [fst snd] in Hrange.
    apply vco_in_range_bounds in Hacc.
    cbn in Hopt.
    destruct Hopt as [<- | [<- | [<- | []]]]; wrap_lia.
  - pose proof (ns2_range_upper freq_out Hnz H2) as Hhi.
    cbn in Hopt.
    destruct Hopt as [<- | [<- | [<- | []]]];
      rewrite (to_int_small (_ * ns2)) by lia; apply to_int_small; lia.
Qed.

(** what a table entry looks like: a bare NS1 ratio, or an exact
    [ns1 * ns2 * 2] *)
Lemma divtable_entry_shape (freq_out d : Z) (divtbl : list Z) :
  idt_get_int_divtable freq_out false = Ok divtbl ->
  In d divtbl ->
  In d [4; 5; 6]
  \/ exists ns2 opt, In opt [4; 5; 6] /\ d = opt * ns2 * 2 /\ d = to_int d.
Proof.
  intros Htbl Hin.
  destruct (divtable_In _ _ _ Htbl Hin)
    as (Hnz & ns2 & opt & Hrange & Hopt & Hd & Hacc).
  destruct (Z.eq_dec ns2 0) as [-> | Hns2].
  - left. subst d. exact Hopt.
  - right. exists ns2, opt. split; [exact Hopt|].
    rewrite Hd in Hacc.
    pose proof (accepted_product_exact _ _ _ Hnz Hrange Hopt Hns2 Hacc) as Hex.
    split; [congruence|].
    rewrite Hd. unfold outdiv_of.
    destruct (Z.eqb_spec ns2 0) as [|_]; [contradiction|].
    symmetry. apply to_int_small. apply to_int_range.
Qed.

Lemma max_div_of_In (divtbl : list Z) :
  max_div_of divtbl = 0 \/ In (max_div_of divtbl) divtbl.
Proof.
  unfold max_div_of.
  assert (H : forall acc,
             fold_left (fun max_div d => if max_div <? d then d else max_div)
               divtbl acc = acc
             \/ In (fold_left (fun max_div d => if max_div <? d then d else max_div)
                      divtbl acc) divtbl).
  { induction divtbl as [|d l IH]; intros acc; cbn.
    - left. reflexivity.
    - destruct (IH (if acc <? d then d else acc)) as [H | H].
      + rewrite H. destruct (acc <? d); [right; left|left]; reflexivity.
      + right. right. exact H. }
  apply H.
Qed.

Lemma max_div_of_nonneg (divtbl : list Z) : 0 <= max_div_of divtbl.
Proof.
  unfold max_div_of.
  assert (H : forall acc, acc <= fold_left
             (fun max_div d => if max_div <? d then d else max_div) divtbl acc).
  { induction divtbl as [|d l IH]; intros acc; cbn; [lia|].
    specialize (IH (if acc <? d then d else acc)).
    destruct (Z.ltb_spec acc d); lia. }
  apply H.
Qed.

(** ** The NS1 register selection *)

Lemma ns1_select_assigned (max_div : Z) :
  max_div = 0 \/ In max_div [4; 5; 6]
  \/ (8 | max_div) \/ (10 | max_div) \/ (12 | max_div) ->
  ns1_select max_div <> None.
Proof.
  intros H. unfold ns1_select.
  assert (Hsel : ((max_div =? 4) || (Z.rem max_div 8 =? 0) = true)
                 \/ ((max_div =? 5) || (Z.rem max_div 10 =? 0) = true)
                 \/ ((max_div =? 6) || (Z.rem max_div 12 =? 0) = true)).
  { destruct H as [-> | [Hin | [Hd | [Hd | Hd]]]].
    - left. reflexivity.
    - cbn in Hin. destruct Hin as [<- | [<- | [<- | []]]];
        [left | right; left | right; right]; reflexivity.
    - left. apply Z.rem_divide in Hd; [|discriminate].
      rewrite Hd. apply orb_true_r.
    - right. left. apply Z.rem_divide in Hd; [|discriminate].
      rewrite Hd. apply orb_true_r.
    - right. right. apply Z.rem_divide in Hd; [|discriminate].
      rewrite Hd. apply orb_true_r. }
  destruct ((max_div =? 4) || (Z.rem max_div 8 =? 0));
    destruct ((max_div =? 5) || (Z.rem max_div 10 =? 0));
    destruct ((max_div =? 6) || (Z.rem max_div 12 =? 0));
    try discriminate.
  destruct Hsel as [Hs | [Hs | Hs]]; discriminate Hs.
Qed.

(** C10: with bypass disabled every entry of the divider table is 4, 5 or 6
    or a multiple of 8, 10 or 12, and the NS1 selection chain assigns [ns1]
    for the largest entry (and for 0, the value [max_div] keeps when no entry
    is positive). *)
Theorem divtable_entries_have_ns1
    (freq_out : Z) (divtbl : list Z) :
  idt_get_int_divtable freq_out false = Ok divtbl ->
  Forall (fun d => In d [4; 5; 6] \/ (8 | d) \/ (10 | d) \/ (12 | d)) divtbl
  /\ ns1_select (max_div_of divtbl) <> None.
Proof.
  intros Htbl.
  assert (Hall : Forall (fun d => In d [4; 5; 6]
                                  \/ (8 | d) \/ (10 | d) \/ (12 | d)) divtbl).
  { apply Forall_forall. intros d Hin.
    destruct (divtable_entry_shape _ _ _ Htbl Hin)
      as [H456 | (ns2 & opt & Hopt & Hd & _)].
    - left. exact H456.
    - right. cbn in Hopt.
      destruct Hopt as [<- | [<- | [<- | []]]];
        [left | right; left | right; right]; exists ns2; lia. }
  split; [exact Hall|].
  apply ns1_select_assigned.
  destruct (max_div_of_In divtbl) as [H0 | Hin]; [left; exact H0|].
  right. rewrite Forall_forall in Hall. apply Hall. exact Hin.
Qed.

Lemma divtable_entries_have_ns1_witness :
  idt_get_int_divtable 148500000 false = Ok [24; 24]
  /\ Forall (fun d => In d [4; 5; 6] \/ (8 | d) \/ (10 | d) \/ (12 | d))
       [24; 24]
  /\ ns1_select (max_div_of [24; 24]) <> None.
Proof.
  split; [vm_compute; reflexivity|].
  apply (divtable_entries_have_ns1 148500000 [24; 24]).
  vm_compute. reflexivity.
Defined.

(** ** The output-divider split *)

Lemma land_1_mod_2 (d : Z) : Z.land d 1 = d mod 2.
Proof. change 1 with (Z.ones 1) at 1. rewrite Z.land_ones by lia. reflexivity. Qed.

Lemma outdiv_split_even (d : Z) :
  0 <= d < 2147483648 -> Z.even d = true -> outdiv_split d = (d / 2, 0).
Proof.
  intros Hd Hev. unfold outdiv_split.
  rewrite land_1_mod_2, Zmod_even, Hev. cbn [Z.eqb].
  rewrite Z.shiftr_div_pow2 by lia. change (2 ^ 1) with 2.
  rewrite to_u32_small; [reflexivity|].
  Z.to_euclidean_division_equations; lia.
Qed.

Lemma outdiv_split_odd (d : Z) :
  0 <= d < 2147483647 -> Z.odd d = true ->
  outdiv_split d = (Spec.ceil_div d 2, 2 ^ 27).
Proof.
  intros Hd Hodd. unfold outdiv_split, Spec.ceil_div.
  rewrite land_1_mod_2, Zmod_odd, Hodd. cbn [Z.eqb].
  rewrite to_int_small by lia.
  rewrite Z.shiftr_div_pow2 by lia. change (2 ^ 1) with 2.
  replace (d + 2 - 1) with (d + 1) by lia.
  rewrite to_u32_small; [reflexivity|].
  Z.to_euclidean_division_equations; lia.
Qed.

Lemma max_div_of_range (freq_out : Z) (divtbl : list Z) :
  idt_get_int_divtable freq_out false = Ok divtbl ->
  0 <= max_div_of divtbl < 2147483648
  /\ (Z.odd (max_div_of divtbl) = true -> max_div_of divtbl = 5).
Proof.
  intros Htbl.
  pose proof (max_div_of_nonneg divtbl) as Hnn.
  destruct (max_div_of_In divtbl) as [-> | Hin].
  - split; [lia|]. discriminate.
  - destruct (divtable_entry_shape _ _ _ Htbl Hin)
      as [H456 | (ns2 & opt & _ & Hprod & Hint)].
    + cbn in H456.
      destruct H456 as [<- | [<- | [<- | []]]];
        (split; [lia|]); try discriminate; reflexivity.
    + pose proof (to_int_range (max_div_of divtbl)) as Hr.
      rewrite <- Hint in Hr. split; [lia|].
      rewrite Hprod, Z.odd_mul. cbn [Z.odd]. rewrite andb_false_r.
      discriminate.
Qed.

(** C7: for the divider selected from the table, an even [total_ratio]
    gives integer [total_ratio / 2] and fraction 0; an odd one gives integer
    [ceil(total_ratio / 2)] and fraction [2^27]. *)
Theorem outdiv_split_by_parity (freq_out : Z) (divtbl : list Z) :
  idt_get_int_divtable freq_out false = Ok divtbl ->
  let total_ratio := max_div_of divtbl in
  (Z.even total_ratio = true ->
     outdiv_split total_ratio = (total_ratio / 2, 0))
  /\ (Z.odd total_ratio = true ->
        outdiv_split total_ratio = (Spec.ceil_div total_ratio 2, 2 ^ 27)).
Proof.
  intros Htbl total_ratio.
  destruct (max_div_of_range _ _ Htbl) as [Hr Hodd5].
  fold total_ratio in Hr, Hodd5.
  split.
  - intros Hev. apply outdiv_split_even; assumption.
  - intros Hodd. apply outdiv_split_odd; [|exact Hodd].
    rewrite (Hodd5 Hodd). lia.
Qed.

Lemma outdiv_split_by_parity_witness :
  idt_get_int_divtable 600000000 false = Ok [5; 6]
  /\ idt_get_int_divtable 720000000 false = Ok [5]
  /\ outdiv_split (max_div_of [5; 6]) = (3, 0)
  /\ outdiv_split (max_div_of [5]) = (3, 134217728).
Proof.
  pose proof (outdiv_split_by_parity 600000000 [5; 6]) as Heven.
  pose proof (outdiv_split_by_parity 720000000 [5]) as Hodd.
  split; [vm_compute; reflexivity|].
  split; [vm_compute; reflexivity|].
  split.
  - apply Heven; vm_compute; reflexivity.
  - apply Hodd; vm_compute; reflexivity.
Defined.

(** ** The settings calculation, taken apart *)

(** what a completed [idt_cal_settings] has computed on its way *)
Lemma idt_cal_settings_ok (freq_in freq_out : Z) (s : idt_settings) :
  idt_cal_settings freq_in freq_out = Ok s ->
  exists divtbl ns1 st m p los,
    idt_get_int_divtable freq_out false = Ok divtbl
    /\ ns1_select (max_div_of divtbl) = Some ns1
    /\ feedback_scan (to_u32 (freq_out * max_div_of divtbl)) freq_in = Ok st
    /\ m1_default st = Some m /\ p_default st = Some p
    /\ los_of (to_u32 (freq_out * max_div_of divtbl)) freq_in = Ok los
    /\ s = {| ns1_qx := to_u8 ns1;
              ns2_qx := to_u16 (Z.quot (Z.quot (max_div_of divtbl)
                                               (ns1_ratio_of ns1)) 2);
              n_qx := fst (outdiv_split (max_div_of divtbl));
              nfrac_qx := snd (outdiv_split (max_div_of divtbl));
              dsm_int := to_u16 (fst (upper_fb_split
                                        (to_u32 (freq_out * max_div_of divtbl))));
              dsm_frac := to_u32 (snd (upper_fb_split
                                         (to_u32 (freq_out * max_div_of divtbl))));
              m1_x := to_u32 m;
              pre_x := to_u32 p;
              los_x := to_u32 los |}.
Proof.
  unfold idt_cal_settings.
  destruct (idt_get_int_divtable freq_out false) as [divtbl|]; [|discriminate].
  cbn [bind].
  destruct (20 <? Z.of_nat (length divtbl)); [discriminate|].
  destruct (ns1_select (max_div_of divtbl)) as [ns1|] eqn:Hns1; [|discriminate].
  cbn [of_option bind].
  destruct (outdiv_split (max_div_of divtbl)) as [n_q2 nfrac_q2] eqn:Hsplit.
  destruct (upper_fb_split (to_u32 (freq_out * max_div_of divtbl)))
    as [d_int d_frac] eqn:Hfb.
  destruct (feedback_scan _ freq_in) as [st|] eqn:Hscan; [|discriminate].
  cbn [bind].
  destruct (los_of _ freq_in) as [los|] eqn:Hlos; [|discriminate].
  cbn [bind].
  destruct (m1_default st) as [m|] eqn:Hm; [|discriminate].
  destruct (p_default st) as [p|] eqn:Hp; [|discriminate].
  cbn [of_option bind fst snd].
  intros H. injection H as <-.
  exists divtbl, ns1, st, m, p, los.
  rewrite Hsplit, Hfb.
  repeat split; first [assumption | reflexivity].
Qed.

(** ** The upper-loop feedback divider *)

Lemma upper_fb_split_crystal (fvco : Z) :
  0 <= fvco < 4294967296 ->
  to_u16 (fst (upper_fb_split fvco)) = fvco / 80000000
  /\ to_u32 (snd (upper_fb_split fvco))
     = Spec.round_div (fvco mod 80000000 * 2 ^ 21) (40000000 * 2)
  /\ fvco / 80000000 <= 53.
Proof.
  intros Hf. unfold upper_fb_split, Spec.round_div. cbn [fst snd].
  change (to_u32 (2 * IDT_8T49N24X_XTAL_FREQ)) with 80000000.
  change (Z.shiftr 78125 1) with 39062.
  change (2 ^ 21) with 2097152.
  change (2 * (40000000 * 2)) with 160000000.
  change (40000000 * 2) with 80000000.
  repeat split; wrap_lia.
Qed.

(** C3 (as the code has it): the DSM split is taken from the fixed crystal
    frequency of 40 MHz, whatever [freq_in] is: [dsm_int] is the quotient of
    [fvco] by 80 MHz and [dsm_frac] the remainder scaled by [2^21 / 80 MHz],
    rounded half up.  [dsm_int] is at most 53, so it always fits 9 bits. *)
Theorem dsm_split_from_crystal (freq_in freq_out : Z) (s : idt_settings) :
  idt_cal_settings freq_in freq_out = Ok s ->
  exists divtbl,
    idt_get_int_divtable freq_out false = Ok divtbl
    /\ let fvco := to_u32 (freq_out * max_div_of divtbl) in
       (dsm_int s, dsm_frac s) = Spec.dsm_split IDT_8T49N24X_XTAL_FREQ fvco
       /\ dsm_int s <= 53.
Proof.
  intros Hs.
  destruct (idt_cal_settings_ok _ _ _ Hs)
    as (divtbl & ns1 & st & m & p & los & Htbl & _ & _ & _ & _ & _ & ->).
  exists divtbl. split; [exact Htbl|]. cbn [dsm_int dsm_frac].
  pose proof (to_u32_range (freq_out * max_div_of divtbl)) as Hr.
  destruct (upper_fb_split_crystal _ Hr) as (Hi & Hf & Hb).
  rewrite Hi, Hf. split; [reflexivity | exact Hb].
Qed.

Lemma dsm_split_from_crystal_witness :
  exists s,
    idt_cal_settings 20000000 148500000 = Ok s
    /\ exists divtbl,
         idt_get_int_divtable 148500000 false = Ok divtbl
         /\ let fvco := to_u32 (148500000 * max_div_of divtbl) in
            (dsm_int s, dsm_frac s) = Spec.dsm_split IDT_8T49N24X_XTAL_FREQ fvco
            /\ dsm_int s <= 53.
Proof.
  eexists. split; [vm_compute; reflexivity|].
  eapply (dsm_split_from_crystal 20000000 148500000).
  vm_compute. reflexivity.
Defined.

(** C3 fails as stated: with a 20 MHz reference and a 148.5 MHz target the
    VCO runs at 3564 MHz; the code stores the split (44, 1153434), the split
    taken from the reference would be (89, 209715). *)
Lemma dsm_split_ignores_reference :
  exists s,
    idt_cal_settings 20000000 148500000 = Ok s
    /\ idt_get_int_divtable 148500000 false = Ok [24; 24]
    /\ to_u32 (148500000 * max_div_of [24; 24]) = 3564000000
    /\ (dsm_int s, dsm_frac s) = (44, 1153434)
    /\ Spec.dsm_split 20000000 3564000000 = (89, 209715)
    /\ (dsm_int s, dsm_frac s) <> Spec.dsm_split 20000000 3564000000.
Proof.
  eexists. split; [vm_compute; reflexivity|].
  repeat split; try (vm_compute; reflexivity).
  vm_compute. discriminate.
Qed.

(** ** The lower-loop search on in-range operands *)

(** [m1] is the quotient rounded half up when nothing wraps *)
Lemma scan_m1_exact (fvco freq_in i : Z) :
  0 <= fvco < 4294967296 ->
  0 < freq_in < 2147483648 ->
  0 <= i <= IDT_8T49N24X_P_MAX ->
  scan_m1 fvco freq_in i = Ok ((fvco * i + freq_in / 2) / freq_in).
Proof.
  unfold IDT_8T49N24X_P_MAX. intros Hf Hin Hi. unfold scan_m1.
  rewrite Z.shiftr_div_pow2 by lia. change (2 ^ 1) with 2.
  assert (Hhalf : 0 <= freq_in / 2 < 2147483648)
    by (Z.to_euclidean_division_equations; lia).
  rewrite (to_u64_small i) by lia.
  rewrite (to_u64_small freq_in) by lia.
  rewrite (to_u64_small (freq_in / 2)) by lia.
  rewrite (to_u64_small (fvco * i)) by nia.
  rewrite to_u64_small by nia.
  destruct (Z.eqb_spec freq_in 0) as [|_]; [lia|reflexivity].
Qed.

(** the rounded quotient leaves at most half of [freq_in] *)
Lemma rounded_quotient_residue (n freq_in : Z) :
  0 < freq_in ->
  let m1 := (n + freq_in / 2) / freq_in in
  n - m1 * freq_in <= freq_in / 2.
Proof.
  intros Hin m1. subst m1.
  pose proof (Z.div_mod (n + freq_in / 2) freq_in ltac:(lia)) as Hdm.
  pose proof (Z.mod_pos_bound (n + freq_in / 2) freq_in Hin) as Hmod.
  assert (Hh : freq_in - 1 <= 2 * (freq_in / 2))
    by (Z.to_euclidean_division_equations; lia).
  nia.
Qed.

(** [error_tmp] when [m1] was rounded down and nothing wraps *)
Lemma scan_error_tmp_exact (fvco freq_in i m1 : Z) :
  0 <= fvco < 4294967296 ->
  0 < freq_in < 2147483648 ->
  0 < i <= IDT_8T49N24X_P_MAX ->
  1000 <= i * freq_in ->
  0 <= m1 ->
  m1 * freq_in <= fvco * i ->
  fvco * i - m1 * freq_in <= freq_in / 2 ->
  scan_error_tmp fvco freq_in i m1
    = Ok ((fvco * i - m1 * freq_in) * 1000000 / (i * freq_in / 1000))
  /\ 0 <= (fvco * i - m1 * freq_in) * 1000000 / (i * freq_in / 1000)
       <= 1000000000.
Proof.
  unfold IDT_8T49N24X_P_MAX. intros Hf Hin Hi Hprod Hm Hdown Hres.
  assert (Hhalf : 0 <= freq_in / 2 < 2147483648)
    by (Z.to_euclidean_division_equations; lia).
  assert (Hx : freq_in <= i * freq_in) by nia.
  assert (Ht1 : 1 <= i * freq_in / 1000)
    by (Z.to_euclidean_division_equations; lia).
  assert (Hd1000 : fvco * i - m1 * freq_in <= 1000 * (i * freq_in / 1000))
    by (Z.to_euclidean_division_equations; lia).
  assert (Hq : 0 <= (fvco * i - m1 * freq_in) * 1000000 / (i * freq_in / 1000)
               <= 1000000000).
  { split.
    - apply Z.div_pos; lia.
    - apply Z.div_le_upper_bound; lia. }
  split; [|exact Hq].
  unfold scan_error_tmp.
  rewrite (to_u64_small i) by lia.
  rewrite (to_u64_small freq_in) by lia.
  rewrite (to_u64_small (fvco * i)) by nia.
  rewrite (to_u64_small (m1 * freq_in)) by nia.
  rewrite (to_u64_small (fvco * i - m1 * freq_in)) by lia.
  rewrite (to_u64_small (_ * 1000000)) by lia.
  rewrite (to_u64_small (i * freq_in)) by nia.
  destruct (Z.eqb_spec (i * freq_in / 1000) 0) as [H0|_]; [lia|].
  rewrite to_int_small by lia. reflexivity.
Qed.

Lemma c_abs_small (e : Z) : 0 <= e < 2147483648 -> c_abs e = e.
Proof. intros H. unfold c_abs. rewrite Z.abs_eq by lia. apply to_int_small. lia. Qed.

(** C5 (as the code has it): for a pre-divider [i] whose multiplier [m1]
    was rounded down and is below [2^24], the error the loop records is
    [(fvco*i - m1*freq_in) * 1000000 / (i*freq_in / 1000)]: the denominator
    is divided by 1000 first, so the unit is parts per 10^9. *)
Theorem tracked_error_scaled (fvco freq_in i m1 : Z) (st : scan_state) :
  0 <= fvco < 4294967296 ->
  0 < freq_in < 2147483648 ->
  0 < i <= IDT_8T49N24X_P_MAX ->
  1000 <= i * freq_in ->
  scan_m1 fvco freq_in i = Ok m1 ->
  m1 < IDT_8T49N24X_M_MAX ->
  m1 * freq_in <= fvco * i ->
  let e := (fvco * i - m1 * freq_in) * 1000000 / (i * freq_in / 1000) in
  scan_error_tmp fvco freq_in i m1 = Ok e
  /\ (e < error st ->
      exists st',
        (scan_body fvco freq_in i st = Ok (Continue st')
         \/ scan_body fvco freq_in i st = Ok (Break st'))
        /\ error st' = e
        /\ m1_default st' = Some m1 /\ p_default st' = Some i).
Proof.
  intros Hf Hin Hi Hprod Hm1 HM Hdown e.
  pose proof Hm1 as Hm1'.
  rewrite scan_m1_exact in Hm1' by lia. injection Hm1' as Hdef.
  assert (Hm0 : 0 <= m1).
  { rewrite <- Hdef. apply Z.div_pos; [|lia].
    assert (0 <= freq_in / 2) by (Z.to_euclidean_division_equations; lia).
    nia. }
  assert (Hres : fvco * i - m1 * freq_in <= freq_in / 2).
  { rewrite <- Hdef. apply rounded_quotient_residue. lia. }
  destruct (scan_error_tmp_exact fvco freq_in i m1) as [Herr Hbound];
    try assumption.
  fold e in Herr, Hbound.
  split; [exact Herr|].
  intros Hlt. unfold scan_body. rewrite Hm1. cbn [bind].
  destruct (Z.ltb_spec m1 IDT_8T49N24X_M_MAX) as [_|]; [|lia].
  rewrite Herr. cbn [bind].
  rewrite c_abs_small by lia.
  destruct (Z.ltb_spec e (error st)) as [_|]; [|lia].
  cbn [orb].
  unfold IDT_8T49N24X_M_MAX in HM.
  exists {| error := e; m1_default := Some (to_int m1); p_default := Some i |}.
  cbn [error m1_default p_default].
  rewrite to_int_small by lia.
  split; [|repeat split].
  destruct (e =? 0); [right|left]; reflexivity.
Qed.

Lemma tracked_error_scaled_witness :
  scan_body 3564000000 40000000 312 scan_init
    = Ok (Continue {| error := 641025;
                      m1_default := Some 27799;
                      p_default := Some 312 |})
  /\ scan_error_tmp 3564000000 40000000 312 27799 = Ok 641025.
Proof.
  split; [vm_compute; reflexivity|].
  apply (tracked_error_scaled 3564000000 40000000 312 27799 scan_init);
    [ lia | lia | unfold IDT_8T49N24X_P_MAX; lia | lia
    | vm_compute; reflexivity | unfold IDT_8T49N24X_M_MAX; lia | lia ].
Defined.

(** C5 fails as stated: for [fvco] = 3564 MHz and a 40 MHz reference the
    first pre-divider examined is 312 with multiplier 27799; the loop
    records the error 641025, the parts-per-million formula gives 641. *)
Lemma tracked_error_not_ppm :
  p_min_of 40000000 = 312
  /\ scan_m1 3564000000 40000000 312 = Ok 27799
  /\ 27799 < IDT_8T49N24X_M_MAX
  /\ scan_body 3564000000 40000000 312 scan_init
       = Ok (Continue {| error := 641025;
                         m1_default := Some 27799;
                         p_default := Some 312 |})
  /\ Spec.error_ppm 3564000000 40000000 312 27799 = 641
  /\ 641025 <> Spec.error_ppm 3564000000 40000000 312 27799.
Proof.
  repeat split; try (vm_compute; reflexivity).
  vm_compute. discriminate.
Qed.

(** ** An empty divider table *)

Lemma p_min_of_range (freq_in : Z) :
  128000 <= freq_in < 2147483648 -> 1 <= p_min_of freq_in <= 16777.
Proof.
  intros H. unfold p_min_of, IDT_8T49N24X_FPD_MAX.
  Z.to_euclidean_division_equations; lia.
Qed.

Lemma p_min_of_int_range (freq_in : Z) :
  -2147483648 <= freq_in < 2147483648 -> -16777 <= p_min_of freq_in <= 16777.
Proof.
  intros H. unfold p_min_of, IDT_8T49N24X_FPD_MAX.
  Z.to_euclidean_division_equations; lia.
Qed.

(** the loop body runs at least once, whatever the [int] [freq_in] is *)
Lemma feedback_scan_first_pass (fvco freq_in : Z) :
  -2147483648 <= freq_in < 2147483648 ->
  exists fuel,
    feedback_scan fvco freq_in
    = (next <- scan_body fvco freq_in (p_min_of freq_in) scan_init ;;
       match next with
       | Break st' => Ok st'
       | Continue st' =>
           scan_loop fuel fvco freq_in (p_min_of freq_in + 1) st'
       end).
Proof.
  intros Hin. pose proof (p_min_of_int_range freq_in Hin) as Hp.
  unfold feedback_scan.
  destruct (Z.to_nat (IDT_8T49N24X_P_MAX + 1 - p_min_of freq_in))
    as [|fuel] eqn:Hfuel.
  - unfold IDT_8T49N24X_P_MAX in Hfuel. lia.
  - exists fuel. cbn [scan_loop].
    destruct (Z.leb_spec (p_min_of freq_in) IDT_8T49N24X_P_MAX) as [_|Hgt];
      [reflexivity|].
    unfold IDT_8T49N24X_P_MAX in Hgt. lia.
Qed.

Lemma feedback_scan_zero_vco (freq_in : Z) :
  128000 <= freq_in < 2147483648 ->
  feedback_scan 0 freq_in
    = Ok {| error := 0; m1_default := Some 0;
            p_default := Some (p_min_of freq_in) |}.
Proof.
  intros Hin. pose proof (p_min_of_range freq_in Hin) as Hp.
  destruct (feedback_scan_first_pass 0 freq_in ltac:(lia)) as [fuel ->].
  assert (Hx : freq_in <= p_min_of freq_in * freq_in) by nia.
  assert (Hhalf : 0 <= freq_in / 2 < freq_in)
    by (Z.to_euclidean_division_equations; lia).
  unfold scan_body.
  rewrite scan_m1_exact by (unfold IDT_8T49N24X_P_MAX; lia).
  rewrite Z.mul_0_l, Z.add_0_l, (Z.div_small (freq_in / 2)) by lia.
  cbn [bind]. change (0 <? IDT_8T49N24X_M_MAX) with true. cbv iota.
  destruct (scan_error_tmp_exact 0 freq_in (p_min_of freq_in) 0) as [-> _];
    try (unfold IDT_8T49N24X_P_MAX; lia).
  replace ((0 * p_min_of freq_in - 0 * freq_in) * 1000000) with 0 by lia.
  rewrite Z.div_0_l by (Z.to_euclidean_division_equations; lia).
  reflexivity.
Qed.

Lemma los_of_zero_vco (freq_in : Z) :
  0 < freq_in < 2147483648 -> los_of 0 freq_in = Ok 6.
Proof.
  intros Hin. unfold los_of. rewrite (to_u32_small freq_in) by lia.
  destruct (Z.eqb_spec freq_in 0) as [|_]; [lia|].
  change (0 / 8) with 0. rewrite Z.div_0_l by lia. reflexivity.
Qed.

(** what [idt_cal_settings] does with an empty divider table: it never looks
    at [divtbl_cnt] except as a loop bound, so [max_div] and [fvco] stay 0,
    the feedback search runs and stops at its first pre-divider, and the
    function returns these settings *)
Theorem empty_table_still_searches (freq_in freq_out : Z) :
  128000 <= freq_in < 2147483648 ->
  idt_get_int_divtable freq_out false = Ok [] ->
  feedback_scan (to_u32 (freq_out * max_div_of [])) freq_in
    = Ok {| error := 0; m1_default := Some 0;
            p_default := Some (p_min_of freq_in) |}
  /\ idt_cal_settings freq_in freq_out
     = Ok {| dsm_frac := 0; m1_x := 0; pre_x := p_min_of freq_in; los_x := 6;
             n_qx := 0; nfrac_qx := 0; ns2_qx := 0; dsm_int := 0;
             ns1_qx := 1 |}.
Proof.
  intros Hin Htbl. pose proof (p_min_of_range freq_in Hin) as Hp.
  change (max_div_of []) with 0. rewrite Z.mul_0_r. change (to_u32 0) with 0.
  split; [apply feedback_scan_zero_vco; exact Hin|].
  unfold idt_cal_settings. rewrite Htbl. cbn [bind length].
  change (20 <? Z.of_nat 0) with false. cbv iota.
  change (max_div_of []) with 0. rewrite Z.mul_0_r. change (to_u32 0) with 0.
  change (ns1_select 0) with (Some 1). cbn [of_option bind].
  change (outdiv_split 0) with (0, 0).
  change (upper_fb_split 0) with (0, 0).
  rewrite feedback_scan_zero_vco by exact Hin.
  rewrite los_of_zero_vco by lia.
  cbn [bind m1_default p_default of_option].
  rewrite (to_u32_small (p_min_of freq_in)) by lia.
  reflexivity.
Qed.

Lemma empty_table_still_searches_witness :
  feedback_scan (to_u32 (1100000000 * max_div_of [])) 40000000
    = Ok {| error := 0; m1_default := Some 0;
            p_default := Some (p_min_of 40000000) |}
  /\ idt_cal_settings 40000000 1100000000
     = Ok {| dsm_frac := 0; m1_x := 0; pre_x := p_min_of 40000000; los_x := 6;
             n_qx := 0; nfrac_qx := 0; ns2_qx := 0; dsm_int := 0;
             ns1_qx := 1 |}.
Proof.
  apply (empty_table_still_searches 40000000 1100000000).
  - lia.
  - vm_compute. reflexivity.
Defined.

(** C4: the code does not fail on an empty divider table.  A target of
    1.1 GHz lies above [IDT_8T49N24X_FOUT_MAX], yet the range test of
    [set_clock] does not reject it (the [&&] of C1); its divider table is
    empty, [idt_cal_settings] returns settings all the same, with a zero
    multiplier and a zero output divider, and [set_clock] writes them to the
    device and returns 0. *)
Lemma empty_table_is_not_a_failure :
  IDT_8T49N24X_FOUT_MAX < 1100000000
  /\ freq_out_rejected 1100000000 = false
  /\ idt_get_int_divtable 1100000000 false = Ok []
  /\ idt_cal_settings 40000000 1100000000
     = Ok {| dsm_frac := 0; m1_x := 0; pre_x := 312; los_x := 6;
             n_qx := 0; nfrac_qx := 0; ns2_qx := 0; dsm_int := 0;
             ns1_qx := 1 |}
  /\ exists log,
       set_clock quiet_bus 40000000 1100000000 = Ok (0, log)
       /\ length log = 43%nat.
Proof.
  split; [reflexivity|].
  split; [reflexivity|].
  split; [vm_compute; reflexivity|].
  split; [vm_compute; reflexivity|].
  eexists. split; vm_compute; reflexivity.
Qed.

(** ** Bounds kept by the lower-loop search *)

(** the fuel handed to the [for] loop is enough: with more of it the scan
    ends in the same state *)
Lemma scan_loop_fuel (fuel extra : nat) (fvco freq_in i : Z) (st : scan_state) :
  IDT_8T49N24X_P_MAX + 1 - i <= Z.of_nat fuel ->
  scan_loop (fuel + extra) fvco freq_in i st = scan_loop fuel fvco freq_in i st.
Proof.
  revert i st. induction fuel as [|fuel IH]; intros i st Hfuel.
  - destruct extra as [|extra]; cbn [Nat.add scan_loop]; [reflexivity|].
    destruct (Z.leb_spec i IDT_8T49N24X_P_MAX); [lia|reflexivity].
  - cbn [Nat.add scan_loop].
    destruct (Z.leb_spec i IDT_8T49N24X_P_MAX); [|reflexivity].
    destruct (scan_body fvco freq_in i st) as [[st'|st']|]; cbn [bind];
      try reflexivity.
    apply IH. lia.
Qed.

Lemma scan_m1_nonneg (fvco freq_in i m1 : Z) :
  scan_m1 fvco freq_in i = Ok m1 -> 0 <= m1.
Proof.
  unfold scan_m1.
  destruct (Z.eqb_spec (to_u64 freq_in) 0) as [|Hnz]; [discriminate|].
  intros H. injection H as <-.
  apply Z.div_pos; unfold to_u64 in *; change (2 ^ 64) with 18446744073709551616 in *.
  - apply Z.mod_pos_bound. lia.
  - pose proof (Z.mod_pos_bound freq_in 18446744073709551616 ltac:(lia)). lia.
Qed.

Lemma scan_body_in_bounds (fvco freq_in i lo : Z) (st : scan_state)
    (next : scan_next) :
  lo <= i <= IDT_8T49N24X_P_MAX ->
  recorded_in_bounds lo st ->
  scan_body fvco freq_in i st = Ok next ->
  recorded_in_bounds lo
    match next with Continue st' => st' | Break st' => st' end.
Proof.
  intros Hi Hst. unfold scan_body.
  destruct (scan_m1 fvco freq_in i) as [m1|] eqn:Hm1; [|discriminate].
  cbn [bind]. apply scan_m1_nonneg in Hm1.
  destruct (Z.ltb_spec m1 IDT_8T49N24X_M_MAX) as [HM|_].
  - destruct (scan_error_tmp fvco freq_in i m1) as [e|]; [|discriminate].
    cbn [bind].
    assert (Hnew : recorded_in_bounds lo
              {| error := c_abs e; m1_default := Some (to_int m1);
                 p_default := Some i |}).
    { split; cbn; intros x Hx; injection Hx as <-; [exact Hi|].
      unfold IDT_8T49N24X_M_MAX in *. rewrite to_int_small; lia. }
    destruct ((c_abs e <? error st) || (e =? 0)).
    + destruct (e =? 0); intros H; injection H as <-; exact Hnew.
    + intros H; injection H as <-; exact Hst.
  - intros H; injection H as <-; exact Hst.
Qed.

Lemma scan_loop_in_bounds (fuel : nat) (fvco freq_in i lo : Z)
    (st st' : scan_state) :
  lo <= i ->
  recorded_in_bounds lo st ->
  scan_loop fuel fvco freq_in i st = Ok st' ->
  recorded_in_bounds lo st'.
Proof.
  revert i st. induction fuel as [|fuel IH]; intros i st Hi Hst; cbn [scan_loop].
  - intros H; injection H as <-; exact Hst.
  - destruct (Z.leb_spec i IDT_8T49N24X_P_MAX) as [Hle|_].
    + destruct (scan_body fvco freq_in i st) as [next|] eqn:Hbody;
        [|discriminate].
      cbn [bind].
      pose proof (scan_body_in_bounds _ _ _ lo _ _ (conj Hi Hle) Hst Hbody)
        as Hnext.
      destruct next as [st1|st1].
      * apply IH; [lia | exact Hnext].
      * intros H; injection H as <-; exact Hnext.
    + intros H; injection H as <-; exact Hst.
Qed.

(** X11: for a reference that is not negative the returned pair satisfies
    [floor(freq_in / 128000) <= pre_x <= 2^22] and [m1_x < 2^24] (the part
    of C2 the code keeps). *)
Lemma feedback_solution_bounds (freq_in freq_out : Z) (s : idt_settings) :
  0 <= freq_in ->
  idt_cal_settings freq_in freq_out = Ok s ->
  freq_in / 128000 <= pre_x s <= 2 ^ 22 /\ 0 <= m1_x s < 2 ^ 24.
Proof.
  intros Hin Hs.
  destruct (idt_cal_settings_ok _ _ _ Hs)
    as (divtbl & ns1 & st & m & p & los & _ & _ & Hscan & Hm & Hp & _ & ->).
  cbn [pre_x m1_x].
  assert (Hb : recorded_in_bounds (p_min_of freq_in) st).
  { unfold feedback_scan in Hscan.
    eapply scan_loop_in_bounds; [| |exact Hscan]; [lia|].
    split; cbn; intros x Hx; discriminate Hx. }
  destruct Hb as [Hpb Hmb].
  specialize (Hpb _ Hp). specialize (Hmb _ Hm).
  unfold p_min_of, IDT_8T49N24X_FPD_MAX, IDT_8T49N24X_P_MAX,
    IDT_8T49N24X_M_MAX in *.
  rewrite Z.quot_div_nonneg in Hpb by lia.
  assert (0 <= freq_in / 128000) by (apply Z.div_pos; lia).
  change (2 ^ 22) with 4194304. change (2 ^ 24) with 16777216.
  rewrite !to_u32_small by lia. lia.
Qed.

(** for a reference of at least 128 kHz the first pre-divider examined
    always yields a multiplier below [M_MAX] *)
Lemma first_multiplier_below_M_MAX (fvco freq_in : Z) :
  0 <= fvco < 4294967296 ->
  128000 <= freq_in < 2147483648 ->
  exists m1,
    scan_m1 fvco freq_in (p_min_of freq_in) = Ok m1
    /\ 0 <= m1 < IDT_8T49N24X_M_MAX.
Proof.
  intros Hf Hin. pose proof (p_min_of_range freq_in Hin) as Hp.
  exists ((fvco * p_min_of freq_in + freq_in / 2) / freq_in).
  split; [apply scan_m1_exact; unfold IDT_8T49N24X_P_MAX; lia|].
  assert (Hp128 : 128000 * p_min_of freq_in <= freq_in).
  { unfold p_min_of, IDT_8T49N24X_FPD_MAX.
    Z.to_euclidean_division_equations; lia. }
  assert (Hhalf : 0 <= freq_in / 2 < freq_in)
    by (Z.to_euclidean_division_equations; lia).
  assert (H1 : fvco * (128000 * p_min_of freq_in) <= fvco * freq_in) by nia.
  assert (H2 : fvco * freq_in <= 4294967295 * freq_in) by nia.
  unfold IDT_8T49N24X_M_MAX. split.
  - apply Z.div_pos; nia.
  - apply Z.div_lt_upper_bound; [lia|]. nia.
Qed.

(** the same for every [int] reference: where the first pass computes a
    multiplier at all, it is below [M_MAX] *)
Lemma first_multiplier_never_saturates (fvco freq_in m1 : Z) :
  0 <= fvco < 4294967296 ->
  -2147483648 <= freq_in < 2147483648 ->
  scan_m1 fvco freq_in (p_min_of freq_in) = Ok m1 ->
  0 <= m1 < IDT_8T49N24X_M_MAX.
Proof.
  intros Hf Hin Hm1.
  assert (Hcase : 128000 <= freq_in \/ 0 < freq_in < 128000
                  \/ freq_in = 0 \/ freq_in < 0) by lia.
  destruct Hcase as [Hbig | [Hsmall | [-> | Hneg]]].
  - destruct (first_multiplier_below_M_MAX fvco freq_in Hf ltac:(lia))
      as (m1' & Hm1' & Hb).
    congruence.
  - assert (Hp0 : p_min_of freq_in = 0).
    { unfold p_min_of, IDT_8T49N24X_FPD_MAX. apply Z.quot_small. lia. }
    rewrite Hp0, scan_m1_exact in Hm1 by (unfold IDT_8T49N24X_P_MAX; lia).
    injection Hm1 as <-.
    rewrite Z.mul_0_r, Z.add_0_l, Z.div_small
      by (Z.to_euclidean_division_equations; lia).
    unfold IDT_8T49N24X_M_MAX. lia.
  - discriminate Hm1.
  - unfold scan_m1 in Hm1.
    destruct (to_u64 freq_in =? 0); [discriminate|].
    injection Hm1 as <-. unfold IDT_8T49N24X_M_MAX.
    assert (Hd : 18446744071562067968 <= to_u64 freq_in) by wrap_lia.
    set (num := to_u64 (to_u64 (fvco * to_u64 (p_min_of freq_in))
                        + to_u64 (Z.shiftr freq_in 1))).
    assert (Hn : 0 <= num < 18446744073709551616).
    { subst num. unfold to_u64 at 1.
      change (2 ^ 64) with 18446744073709551616.
      apply Z.mod_pos_bound. lia. }
    split.
    + apply Z.div_pos; lia.
    + apply Z.div_lt_upper_bound; lia.
Qed.

(** X18: a scan that runs to its end has always examined a multiplier below
    [M_MAX]: its first pass computes one, whatever the VCO frequency and the
    reference are. *)
Lemma scan_never_exhausted (fvco freq_in : Z) (st : scan_state) :
  0 <= fvco < 4294967296 ->
  -2147483648 <= freq_in < 2147483648 ->
  feedback_scan fvco freq_in = Ok st ->
  exists m1,
    scan_m1 fvco freq_in (p_min_of freq_in) = Ok m1
    /\ 0 <= m1 < IDT_8T49N24X_M_MAX.
Proof.
  intros Hf Hin Hscan.
  destruct (feedback_scan_first_pass fvco freq_in Hin) as [fuel Hfirst].
  rewrite Hfirst in Hscan. unfold scan_body in Hscan.
  destruct (scan_m1 fvco freq_in (p_min_of freq_in)) as [m1|] eqn:Hm1;
    [|discriminate].
  exists m1. split; [reflexivity|].
  apply (first_multiplier_never_saturates fvco freq_in); assumption.
Qed.

(** C2: for a 40 MHz reference and a 125 MHz target the search returns the
    pre-divider 312 (with multiplier 31200), one below
    [ceil(40000000 / 128000) = 313]: the scan starts at the truncated
    quotient, and the phase-detector frequency [40000000 / 312] lies above
    [IDT_8T49N24X_FPD_MAX]. *)
Theorem pre_divider_below_ceiling :
  exists s,
    idt_cal_settings 40000000 125000000 = Ok s
    /\ pre_x s = 312 /\ m1_x s = 31200
    /\ p_min_of 40000000 = 312
    /\ Spec.p_min 40000000 = 313
    /\ pre_x s < Spec.p_min 40000000
    /\ IDT_8T49N24X_FPD_MAX < 40000000 / pre_x s.
Proof.
  eexists. split; [vm_compute; reflexivity|].
  repeat split; vm_compute; reflexivity.
Qed.

(** ** Shape lemmas for write sequences *)

Section Emits.

Variable bus : regmap.

Lemma emits_write (addr val : Z) :
  emits bus (idt_write_reg bus addr val) [(to_u16 addr, Some (to_u8 val))].
Proof.
  intros log. exists [], (to_u16 addr, to_u8 val). cbn.
  rewrite app_nil_r. split; [reflexivity|].
  repeat constructor.
Qed.

Lemma emits_modify (addr val mask : Z) :
  emits bus (idt_modify_reg bus addr val mask) [(to_u16 addr, None)].
Proof.
  intros log. unfold idt_modify_reg.
  destruct (emits_write addr
              (Z.lor (Z.land (regmap_read bus log (to_u16 addr)) (Z.lnot mask))
                     (Z.land val mask)) log) as (ws & w & Hrun & Hfit).
  exists ws, w. split; [exact Hrun|].
  inversion Hfit as [|w0 p0 l l' Hw Hrest]; subst.
  inversion Hrest; subst.
  constructor; [|constructor].
  destruct Hw as [Ha _]. split; [exact Ha|exact I].
Qed.

Lemma emits_bind (m : io Z) (k : Z -> io Z) (p1 p2 : list write_pattern) :
  emits bus m p1 -> (forall x, emits bus (k x) p2) ->
  emits bus (io_bind m k) (p1 ++ p2).
Proof.
  intros Hm Hk log. unfold io_bind.
  destruct (Hm log) as (ws1 & w1 & Hrun1 & Hfit1). rewrite Hrun1.
  destruct (Hk (regmap_write bus (log ++ ws1) (fst w1) (snd w1))
               (log ++ ws1 ++ [w1])) as (ws2 & w2 & Hrun2 & Hfit2).
  exists ((ws1 ++ [w1]) ++ ws2), w2. split.
  - rewrite Hrun2. repeat rewrite <- app_assoc. reflexivity.
  - rewrite <- app_assoc. apply Forall2_app; assumption.
Qed.

Lemma emits_ret (m : io Z) (pat : list write_pattern) :
  emits bus m pat -> emits bus (io_bind m (fun ret => io_ret ret)) pat.
Proof.
  intros Hm log. unfold io_bind, io_ret.
  destruct (Hm log) as (ws & w & Hrun & Hfit). rewrite Hrun.
  exists ws, w. split; [reflexivity|assumption].
Qed.

Lemma emits_lift (a : Z) (k : Z -> io Z) (pat : list write_pattern) :
  emits bus (k a) pat -> emits bus (io_bind (io_lift (Ok a)) k) pat.
Proof. intros Hk log. exact (Hk log). Qed.

Lemma emits_as (m : io Z) (p p' : list write_pattern) :
  emits bus m p -> p = p' -> emits bus m p'.
Proof. intros H <-. exact H. Qed.

End Emits.

(** walks down a chain of binds, one device call at a time *)
Ltac emits_chain :=
  lazymatch goal with
  | |- emits _ (io_bind (io_lift (Ok _)) _) _ =>
      simple apply emits_lift; emits_chain
  | |- emits _ (io_bind _ (fun ret => io_ret ret)) _ =>
      simple apply emits_ret; emits_chain
  | |- emits _ (io_bind _ _) _ =>
      simple eapply emits_bind; [emits_chain | intros ?; emits_chain]
  | |- emits _ (idt_write_reg _ _ _) _ => simple apply emits_write
  | |- emits _ (idt_modify_reg _ _ _ _) _ => simple apply emits_modify
  end.

Section EncoderShapes.

Variable bus : regmap.

Lemma idt_ref_input_emits (input : Z) (enable : bool) :
  emits bus (idt_ref_input bus input enable) [(0x000a, None)].
Proof.
  unfold idt_ref_input. eapply emits_as; [emits_chain | reflexivity].
Qed.

Lemma idt_set_mode_emits (synthesizer : bool) :
  emits bus (idt_set_mode bus synthesizer) [(0x000a, None); (0x0069, None)].
Proof.
  unfold idt_set_mode. eapply emits_as; [emits_chain | reflexivity].
Qed.

End EncoderShapes.

Lemma programming_pattern_addrs (s : idt_settings) :
  map fst (programming_pattern s) = programming_addrs.
Proof. reflexivity. Qed.

Lemma fits_addrs (ws : list reg_write) (pat : list write_pattern) :
  Forall2 fits ws pat -> map fst ws = map fst pat.
Proof.
  induction 1 as [|w p ws pat [Ha _] _ IH]; cbn; [reflexivity|].
  rewrite Ha, IH. reflexivity.
Qed.

Lemma fits_exact (w : reg_write) (a v : Z) : fits w (a, Some v) -> w = (a, v).
Proof.
  destruct w as [a' v']. unfold fits. cbn. intros [Ha Hv]. subst. reflexivity.
Qed.

Section SetClockShape.

Variable bus : regmap.

Lemma range_tests_never_reject (freq_in freq_out : Z) :
  freq_in_rejected freq_in = false /\ freq_out_rejected freq_out = false.
Proof.
  unfold freq_in_rejected, freq_out_rejected,
    IDT_8T49N24X_FIN_MIN, IDT_8T49N24X_FIN_MAX,
    IDT_8T49N24X_FOUT_MIN, IDT_8T49N24X_FOUT_MAX.
  split; apply andb_false_iff.
  - destruct (Z.ltb_spec freq_in 8000); [right|left; reflexivity].
    apply Z.ltb_ge. lia.
  - destruct (Z.ltb_spec freq_out 8000); [right|left; reflexivity].
    apply Z.ltb_ge. lia.
Qed.

Lemma set_clock_runs_program (freq_in freq_out : Z) :
  set_clock bus freq_in freq_out = set_clock_program bus freq_in freq_out [].
Proof.
  unfold set_clock.
  destruct (range_tests_never_reject freq_in freq_out) as [-> ->].
  reflexivity.
Qed.

(** the writes that follow a successful settings calculation *)
Lemma set_clock_program_emits (freq_in freq_out : Z) (s : idt_settings) :
  idt_cal_settings (to_int freq_in) (to_int freq_out) = Ok s ->
  exists ws w,
    set_clock_program bus freq_in freq_out []
      = Ok (regmap_write bus ws (fst w) (snd w), ws ++ [w])
    /\ Forall2 fits (ws ++ [w])
         ((0x0070, Some 0x05) :: programming_pattern s ++ [(0x0070, Some 0x00)]).
Proof.
  intros Hs.
  unfold set_clock_program, io_bind at 1, io_lift. rewrite Hs.
  match goal with
  | |- exists ws w, ?m [] = _ /\ Forall2 _ _ ?pat =>
      assert (Hm : emits bus m pat)
  end.
  { unfold idt_ref_input, idt_set_mode, idt_pre_div, idt_m1_feedback,
      idt_dsm_int, idt_dsm_frac, idt_outdiv_int, idt_outdiv_frac,
      idt_in_monitor_ctrl.
    change (outdiv_int_addr 2) with (Some 0x0045).
    change (outdiv_int_addr 3) with (Some 0x0048).
    change (outdiv_frac_addr 2) with (Some 0x005b).
    change (outdiv_frac_addr 3) with (Some 0x005f).
    unfold of_option.
    eapply emits_as; [emits_chain | reflexivity]. }
  destruct (Hm []) as (ws & w & Hrun & Hfit).
  exists ws, w. split; assumption.
Qed.

Lemma set_clock_ok_settings (freq_in freq_out ret : Z) (log : list reg_write) :
  set_clock bus freq_in freq_out = Ok (ret, log) ->
  exists s, idt_cal_settings (to_int freq_in) (to_int freq_out) = Ok s.
Proof.
  rewrite set_clock_runs_program.
  unfold set_clock_program, io_bind at 1, io_lift.
  destruct (idt_cal_settings (to_int freq_in) (to_int freq_out)) as [s|f].
  - intros _. exists s. reflexivity.
  - discriminate.
Qed.

End SetClockShape.

(** ** The write sequence of [set_clock] *)

Lemma fits_bracketed (l : list reg_write) (p0 pn : write_pattern)
    (pm : list write_pattern) :
  Forall2 fits l (p0 :: pm ++ [pn]) ->
  exists w0 mid wn,
    l = w0 :: mid ++ [wn] /\ fits w0 p0 /\ Forall2 fits mid pm /\ fits wn pn.
Proof.
  intros H. inversion H as [|w0 p0' l' pat' Hw0 Hrest]; subst.
  apply Forall2_app_inv_r in Hrest.
  destruct Hrest as (mid & tl & Hmid & Htl & ->).
  inversion Htl as [|wn pn' tl' pat'' Hwn Hnil]; subst.
  inversion Hnil; subst.
  exists w0, mid, wn.
  split; [reflexivity|]. split; [assumption|]. split; assumption.
Qed.

(** C8: every write sequence [set_clock] produces starts with the
    calibration-disable write (0x05 to 0x0070) and ends with the
    calibration-enable write (0x00 to 0x0070); the 41 programming writes
    lie between the two and none of them addresses 0x0070. *)
Theorem calibration_writes_bracket_programming
    (bus : regmap) (freq_in freq_out ret : Z) (log : list reg_write) :
  set_clock bus freq_in freq_out = Ok (ret, log) ->
  exists mid,
    log = (0x0070, 0x05) :: mid ++ [(0x0070, 0x00)]
    /\ map fst mid = programming_addrs
    /\ ~ In 0x0070 (map fst mid).
Proof.
  intros Hrun.
  destruct (set_clock_ok_settings bus _ _ _ _ Hrun) as [s Hs].
  destruct (set_clock_program_emits bus _ _ _ Hs) as (ws & w & Hprog & Hfit).
  rewrite set_clock_runs_program, Hprog in Hrun.
  injection Hrun as _ <-.
  apply fits_bracketed in Hfit.
  destruct Hfit as (w0 & mid & wn & Hlog & Hw0 & Hmid & Hwn).
  apply fits_exact in Hw0. apply fits_exact in Hwn. subst w0 wn.
  assert (Haddrs : map fst mid = programming_addrs).
  { rewrite (fits_addrs _ _ Hmid). apply programming_pattern_addrs. }
  exists mid. split; [exact Hlog|]. split; [exact Haddrs|].
  rewrite Haddrs. unfold programming_addrs. cbn.
  intros Hin. repeat (destruct Hin as [Heq|Hin]; [discriminate Heq|]).
  exact Hin.
Qed.

Lemma calibration_writes_bracket_programming_witness :
  exists ret log,
    set_clock quiet_bus 40000000 148500000 = Ok (ret, log)
    /\ exists mid,
         log = (0x0070, 0x05) :: mid ++ [(0x0070, 0x00)]
         /\ map fst mid = programming_addrs
         /\ ~ In 0x0070 (map fst mid).
Proof.
  eexists. eexists. split.
  - vm_compute. reflexivity.
  - eapply (calibration_writes_bracket_programming quiet_bus 40000000 148500000).
    vm_compute. reflexivity.
Defined.

(** C9: whatever status the device returns for each write, [set_clock]
    issues all 43 writes, and the value it returns is the status of the last
    write alone. *)
Theorem write_failures_do_not_stop_sequence
    (bus : regmap) (freq_in freq_out ret : Z) (log : list reg_write) :
  set_clock bus freq_in freq_out = Ok (ret, log) ->
  map fst log = 0x0070 :: programming_addrs ++ [0x0070]
  /\ exists earlier w,
       log = earlier ++ [w]
       /\ ret = regmap_write bus earlier (fst w) (snd w).
Proof.
  intros Hrun.
  destruct (set_clock_ok_settings bus _ _ _ _ Hrun) as [s Hs].
  destruct (set_clock_program_emits bus _ _ _ Hs) as (ws & w & Hprog & Hfit).
  rewrite set_clock_runs_program, Hprog in Hrun.
  injection Hrun as <- <-.
  split.
  - rewrite (fits_addrs _ _ Hfit). cbn [map fst].
    rewrite map_app, programming_pattern_addrs. reflexivity.
  - exists ws, w. split; reflexivity.
Qed.

Lemma write_failures_do_not_stop_sequence_witness :
  exists ret log,
    set_clock flaky_bus 40000000 148500000 = Ok (ret, log)
    /\ regmap_write flaky_bus [(0x0070, 0x05)] 0x000a 16 = -5
    /\ ret = 0
    /\ map fst log = 0x0070 :: programming_addrs ++ [0x0070]
    /\ exists earlier w,
         log = earlier ++ [w]
         /\ ret = regmap_write flaky_bus earlier (fst w) (snd w).
Proof.
  eexists. eexists. split; [vm_compute; reflexivity|].
  split; [reflexivity|]. split; [reflexivity|].
  eapply (write_failures_do_not_stop_sequence flaky_bus 40000000 148500000).
  vm_compute. reflexivity.
Defined.

(** ** The range tests of [set_clock] *)

Lemma cal_settings_zero_target (freq_in : Z) :
  idt_cal_settings freq_in 0 = Fault DivideByZero.
Proof. reflexivity. Qed.

(** C1: the output-range test of [set_clock] rejects no frequency at all.
    A target of 0 goes on to the settings calculation and reaches the
    division by [freq_out]; a target of 1.1 GHz is programmed into the
    device with status 0. *)
Theorem out_of_range_target_not_rejected :
  (forall freq_out, freq_out_rejected freq_out = false)
  /\ (forall bus freq_in, set_clock bus freq_in 0 = Fault DivideByZero)
  /\ (exists log,
        set_clock quiet_bus 40000000 1100000000 = Ok (0, log)
        /\ length log = 43%nat).
Proof.
  split; [|split].
  - intros freq_out. apply (range_tests_never_reject 0 freq_out).
  - intros bus freq_in. rewrite set_clock_runs_program.
    unfold set_clock_program, io_bind at 1, io_lift.
    change (to_int 0) with 0. rewrite cal_settings_zero_target. reflexivity.
  - eexists. split; vm_compute; reflexivity.
Qed.


(** * Further properties of the frequency plan *)

(** ** The divider table for targets in the documented output range *)

(** the two divider limits for a target between [FOUT_MIN] and [FOUT_MAX] *)
Lemma outdiv_limits_declared (freq_out : Z) :
  8000 <= freq_out <= 400000000 ->
  8 <= outdiv_min_of freq_out <= 375000
  /\ 10 <= outdiv_max_of freq_out <= 500000
  /\ freq_out * (outdiv_min_of freq_out - 1) < 3000000000
  /\ 3000000000 <= freq_out * outdiv_min_of freq_out
  /\ freq_out * outdiv_max_of freq_out <= 4000000000
  /\ 4000000000 < freq_out * (outdiv_max_of freq_out + 1).
Proof.
  intros Hf. unfold outdiv_min_of, outdiv_max_of,
    IDT_8T49N24X_FVCO_MIN, IDT_8T49N24X_FVCO_MAX.
  rewrite !Z.quot_div_nonneg, Z.rem_mod_nonneg by lia.
  pose proof (Z.div_mod 3000000000 freq_out ltac:(lia)) as Hdm3.
  pose proof (Z.mod_pos_bound 3000000000 freq_out ltac:(lia)) as Hm3.
  pose proof (Z.div_mod 4000000000 freq_out ltac:(lia)) as Hdm4.
  pose proof (Z.mod_pos_bound 4000000000 freq_out ltac:(lia)) as Hm4.
  set (q3 := 3000000000 / freq_out) in *.
  set (r3 := 3000000000 mod freq_out) in *.
  set (q4 := 4000000000 / freq_out) in *.
  set (r4 := 4000000000 mod freq_out) in *.
  assert (Hq3 : 7 <= q3 <= 375000) by nia.
  assert (Hq4 : 10 <= q4 <= 500000) by nia.
  rewrite (to_int_small q4) by lia.
  destruct (Z.eqb_spec r3 0) as [Hr0|Hr0].
  - rewrite to_int_small by lia.
    assert (8 <= q3) by nia. repeat split; nia.
  - rewrite to_int_small by lia. repeat split; nia.
Qed.

(** the NS2 range the enumeration runs over for such a target *)
Lemma ns2_range_declared (freq_out : Z) :
  8000 <= freq_out <= 400000000 ->
  exists ns2_min ns2_max,
    ns2_range freq_out 1 = (ns2_min, ns2_max)
    /\ 1 <= ns2_min
    /\ 12 * ns2_min <= outdiv_min_of freq_out + 6
    /\ outdiv_min_of freq_out - 11 <= 12 * ns2_min
    /\ 8 * ns2_max <= outdiv_max_of freq_out
    /\ outdiv_max_of freq_out - 7 <= 8 * ns2_max.
Proof.
  intros Hf.
  destruct (outdiv_limits_declared freq_out Hf) as (Hom & HoM & _).
  unfold ns2_range.
  set (om := outdiv_min_of freq_out) in *.
  set (oM := outdiv_max_of freq_out) in *.
  assert (Hby : existsb (fun o => (o =? om) || (o =? oM)) (skipn 1 ns1_opts)
                = false).
  { cbn [skipn ns1_opts existsb].
    repeat match goal with
           | |- context [?a =? ?b] =>
               destruct (Z.eqb_spec a b); [lia|]
           end.
    reflexivity. }
  rewrite Hby. cbn [nth ns1_opts].
  eexists. eexists. split; [reflexivity|].
  destruct (Z.eqb_spec (Z.rem (Z.quot om 6) 2) 0);
    destruct (Z.eqb_spec (Z.quot (Z.quot oM 4) 2) 0);
    repeat split; Z.to_euclidean_division_equations; lia.
Qed.

Lemma vco_in_range_exact (freq_out d : Z) :
  3000000000 <= freq_out * d <= 4000000000 -> vco_in_range freq_out d = true.
Proof.
  intros H. unfold vco_in_range. rewrite to_u32_small by lia.
  apply andb_true_intro. split; apply Z.leb_le;
    unfold IDT_8T49N24X_FVCO_MAX, IDT_8T49N24X_FVCO_MIN; lia.
Qed.

(** the [while] loop stores every accepted pair of its range *)
Lemma divtable_loop_complete (fuel : nat) (freq_out ns2_tmp ns2_max ns2 opt : Z)
    (opts : list Z) :
  ns2_tmp <= ns2 <= ns2_max ->
  ns2_max + 1 - ns2_tmp <= Z.of_nat fuel ->
  In opt opts ->
  vco_in_range freq_out (outdiv_of ns2 opt) = true ->
  In (outdiv_of ns2 opt) (divtable_loop fuel freq_out opts ns2_tmp ns2_max).
Proof.
  revert ns2_tmp. induction fuel as [|fuel IH]; intros ns2_tmp Hr Hfuel Hopt Hacc.
  - lia.
  - cbn [divtable_loop].
    destruct (Z.leb_spec ns2_tmp ns2_max); [|lia].
    apply in_or_app.
    destruct (Z.eq_dec ns2 ns2_tmp) as [-> | Hne].
    + left. unfold divtable_row. apply filter_In. split; [|exact Hacc].
      apply in_map. exact Hopt.
    + right. apply IH; try assumption; lia.
Qed.

(** what holds of every table entry for a target in the documented range *)
Lemma divtable_entry_declared (freq_out d : Z) (divtbl : list Z) :
  8000 <= freq_out <= 400000000 ->
  idt_get_int_divtable freq_out false = Ok divtbl ->
  In d divtbl ->
  3000000000 <= freq_out * d <= 4000000000
  /\ 8 <= d <= 500000 /\ Z.even d = true.
Proof.
  intros Hf Htbl Hin.
  destruct (divtable_In _ _ _ Htbl Hin)
    as (Hnz & ns2 & opt & Hrange & Hopt & Hd & Hacc).
  destruct (ns2_range_declared freq_out Hf)
    as (lo & hi & Hr & Hlo1 & _ & _ & Hhi & _).
  destruct (outdiv_limits_declared freq_out Hf)
    as (_ & HoM & _ & _ & HfM & _).
  pose proof Hrange as Hrange'. rewrite Hr in Hrange'. cbn [fst snd] in Hrange'.
  assert (Hns2 : ns2 <> 0) by lia.
  rewrite Hd in Hacc.
  pose proof (accepted_product_exact _ _ _ Hnz Hrange Hopt Hns2 Hacc) as Hex.
  rewrite <- Hd in Hacc. rewrite Hex in Hd.
  apply vco_in_range_bounds in Hacc.
  set (oM := outdiv_max_of freq_out) in *.
  assert (Hdb : 8 <= d <= 12 * hi).
  { cbn in Hopt. destruct Hopt as [<- | [<- | [<- | []]]]; lia. }
  assert (Hprod : 0 < freq_out * d <= 6000000000) by nia.
  assert (Hexact : to_u32 (freq_out * d) = freq_out * d) by wrap_lia.
  rewrite Hexact in Hacc.
  split; [exact Hacc|]. split; [nia|].
  rewrite Hd, Z.even_mul. cbn [Z.even]. apply orb_true_r.
Qed.

(** X1: for a target between 8 kHz and 400 MHz every divider in the table
    is an even number of at least 8 and puts the VCO, as a true product
    without wrap-around, between 3 GHz and 4 GHz. *)
Theorem divtable_entries_in_vco_range
    (freq_out d : Z) (divtbl : list Z) :
  8000 <= freq_out <= 400000000 ->
  idt_get_int_divtable freq_out false = Ok divtbl ->
  In d divtbl ->
  3000000000 <= freq_out * d <= 4000000000
  /\ 8 <= d <= 500000 /\ Z.even d = true.
Proof. apply divtable_entry_declared. Qed.

Lemma divtable_entries_in_vco_range_witness :
  3000000000 <= 148500000 * 24 <= 4000000000
  /\ 8 <= 24 <= 500000 /\ Z.even 24 = true.
Proof.
  apply (divtable_entries_in_vco_range 148500000 24 [24; 24]).
  - lia.
  - vm_compute. reflexivity.
  - cbn. left. reflexivity.
Defined.

(** an accepted divider exists between the two limits *)
Lemma divider_between_limits (om oM lo hi : Z) :
  8 <= om -> 4 * (om - 1) < 3 * (oM + 1) ->
  12 * lo <= om + 6 -> 8 * hi <= oM -> oM - 7 <= 8 * hi ->
  exists opt ns2,
    In opt [4; 5; 6] /\ lo <= ns2 <= hi /\ om <= opt * ns2 * 2 <= oM.
Proof.
  intros Hom Hwin Hlo Hhi Hhi'.
  assert (Hcase : om = 8 \/ 9 <= om <= 10 \/ 11 <= om <= 12
                  \/ 13 <= om <= 16 \/ 17 <= om <= 20 \/ 21 <= om <= 24
                  \/ 25 <= om <= 26 \/ 27 <= om) by lia.
  destruct Hcase as [H | [H | [H | [H | [H | [H | [H | H]]]]]]].
  - exists 4, 1. split; [cbn; tauto | lia].
  - exists 5, 1. split; [cbn; tauto | lia].
  - exists 6, 1. split; [cbn; tauto | lia].
  - exists 4, 2. split; [cbn; tauto | lia].
  - exists 5, 2. split; [cbn; tauto | lia].
  - exists 6, 2. split; [cbn; tauto | lia].
  - exists 5, 3. split; [cbn; tauto | lia].
  - exists 4, hi. split; [cbn; tauto | lia].
Qed.

Lemma max_div_of_ge (divtbl : list Z) (d : Z) :
  In d divtbl -> d <= max_div_of divtbl.
Proof.
  unfold max_div_of. generalize 0.
  induction divtbl as [|x l IH]; intros acc Hin; [destruct Hin|].
  cbn [fold_left]. destruct Hin as [-> | Hin].
  - assert (Hmono : forall l' a, a <= fold_left
              (fun m y => if m <? y then y else m) l' a).
    { clear. induction l' as [|y l' IH']; intros a; cbn; [lia|].
      specialize (IH' (if a <? y then y else a)).
      destruct (Z.ltb_spec a y); lia. }
    specialize (Hmono l (if acc <? d then d else acc)).
    destruct (Z.ltb_spec acc d); lia.
  - apply IH. exact Hin.
Qed.

(** the table of a target in the documented range, with its largest entry *)
Lemma declared_target_table (freq_out : Z) :
  8000 <= freq_out <= 400000000 ->
  exists divtbl,
    idt_get_int_divtable freq_out false = Ok divtbl
    /\ divtbl <> []
    /\ In (max_div_of divtbl) divtbl.
Proof.
  intros Hf.
  destruct (outdiv_limits_declared freq_out Hf)
    as (Hom & HoM & Hm1 & Hm2 & HM1 & HM2).
  destruct (ns2_range_declared freq_out Hf)
    as (lo & hi & Hr & Hlo1 & Hlo & _ & Hhi & Hhi').
  set (om := outdiv_min_of freq_out) in *.
  set (oM := outdiv_max_of freq_out) in *.
  assert (Hwin : 4 * (om - 1) < 3 * (oM + 1)) by nia.
  destruct (divider_between_limits om oM lo hi ltac:(lia) Hwin Hlo Hhi Hhi')
    as (opt & ns2 & Hopt & Hns2 & Hd).
  assert (Hex : outdiv_of ns2 opt = opt * ns2 * 2).
  { unfold outdiv_of. destruct (Z.eqb_spec ns2 0); [lia|].
    assert (0 < opt * ns2 <= 250000) by lia.
    rewrite (to_int_small (opt * ns2)) by lia. apply to_int_small. lia. }
  assert (Hacc : vco_in_range freq_out (outdiv_of ns2 opt) = true).
  { apply vco_in_range_exact. rewrite Hex. nia. }
  assert (Htbl : idt_get_int_divtable freq_out false
                 = Ok (divtable_loop (Z.to_nat (hi + 1 - lo)) freq_out
                         (skipn 1 ns1_opts) lo hi)).
  { unfold idt_get_int_divtable.
    destruct (Z.eqb_spec freq_out 0); [lia|]. rewrite Hr. reflexivity. }
  eexists. split; [exact Htbl|].
  set (divtbl := divtable_loop _ _ _ _ _) in *.
  assert (Hin : In (outdiv_of ns2 opt) divtbl).
  { apply divtable_loop_complete; try assumption; lia. }
  split; [intros E; rewrite E in Hin; exact Hin|].
  destruct (max_div_of_In divtbl) as [H0 | H]; [|exact H].
  apply max_div_of_ge in Hin. rewrite H0, Hex in Hin. lia.
Qed.

(** X2: for a target between 8 kHz and 400 MHz the divider table is never
    empty, so the divider selected from it is one of its entries and the VCO
    frequency [freq_out * max_div] lies between 3 GHz and 4 GHz. *)
Theorem declared_target_has_divider (freq_out : Z) :
  8000 <= freq_out <= 400000000 ->
  exists divtbl,
    idt_get_int_divtable freq_out false = Ok divtbl
    /\ divtbl <> []
    /\ In (max_div_of divtbl) divtbl
    /\ 3000000000 <= freq_out * max_div_of divtbl <= 4000000000.
Proof.
  intros Hf.
  destruct (declared_target_table freq_out Hf) as (divtbl & Htbl & Hne & Hmax).
  exists divtbl. repeat split; try assumption;
    apply (divtable_entry_declared freq_out _ divtbl Hf Htbl Hmax).
Qed.

Lemma declared_target_has_divider_witness :
  exists divtbl,
    idt_get_int_divtable 297000000 false = Ok divtbl
    /\ divtbl <> []
    /\ In (max_div_of divtbl) divtbl
    /\ 3000000000 <= 297000000 * max_div_of divtbl <= 4000000000.
Proof. apply (declared_target_has_divider 297000000). lia. Defined.

(** ** The size of the divider table *)

Lemma divtable_row_length (freq_out ns2_tmp : Z) (opts : list Z) :
  (length (divtable_row freq_out ns2_tmp opts) <= length opts)%nat.
Proof.
  unfold divtable_row.
  rewrite <- (length_map (outdiv_of ns2_tmp) opts). apply filter_length_le.
Qed.

Lemma divtable_loop_length (fuel : nat) (freq_out ns2_tmp ns2_max : Z)
    (opts : list Z) :
  (length (divtable_loop fuel freq_out opts ns2_tmp ns2_max)
   <= fuel * length opts)%nat.
Proof.
  revert ns2_tmp. induction fuel as [|fuel IH]; intros ns2_tmp; cbn [divtable_loop].
  - cbn. lia.
  - destruct (ns2_tmp <=? ns2_max); [|cbn; lia].
    rewrite length_app.
    pose proof (divtable_row_length freq_out ns2_tmp opts).
    specialize (IH (ns2_tmp + 1)). cbn [Nat.mul]. lia.
Qed.

(** the NS2 range has at most six values for a target of 50 MHz or more *)
Lemma ns2_range_width (freq_out : Z) :
  50000000 <= freq_out < 2147483648 ->
  snd (ns2_range freq_out 1) + 1 - fst (ns2_range freq_out 1) <= 6.
Proof.
  intros Hf.
  destruct (ns2_range_cases freq_out) as [-> | ->]; cbn [fst snd]; [lia|].
  unfold outdiv_min_of, outdiv_max_of,
    IDT_8T49N24X_FVCO_MIN, IDT_8T49N24X_FVCO_MAX.
  rewrite !(Z.quot_div_nonneg 3000000000), !(Z.quot_div_nonneg 4000000000),
    Z.rem_mod_nonneg by lia.
  pose proof (Z.div_mod 3000000000 freq_out ltac:(lia)) as Hdm3.
  pose proof (Z.mod_pos_bound 3000000000 freq_out ltac:(lia)) as Hm3.
  pose proof (Z.div_mod 4000000000 freq_out ltac:(lia)) as Hdm4.
  pose proof (Z.mod_pos_bound 4000000000 freq_out ltac:(lia)) as Hm4.
  set (q3 := 3000000000 / freq_out) in *.
  set (r3 := 3000000000 mod freq_out) in *.
  set (q4 := 4000000000 / freq_out) in *.
  set (r4 := 4000000000 mod freq_out) in *.
  assert (Hq3 : 1 <= q3 <= 60) by nia.
  assert (Hq4 : 1 <= q4 <= 80) by nia.
  assert (Hrel : 3 * q4 <= 4 * q3 + 3) by nia.
  rewrite (to_int_small q4) by lia.
  rewrite (to_int_small (q3 + _)) by (destruct (r3 =? 0); lia).
  assert (Hom : q3 <= q3 + (if r3 =? 0 then 0 else 1) <= q3 + 1)
    by (destruct (r3 =? 0); lia).
  set (om := q3 + (if r3 =? 0 then 0 else 1)) in *.
  destruct (Z.eqb_spec (Z.rem (Z.quot om 6) 2) 0);
    destruct (Z.eqb_spec (Z.quot (Z.quot q4 4) 2) 0);
    Z.to_euclidean_division_equations; lia.
Qed.

(** X3: for a target of 50 MHz or more the enumeration stores at most 18
    dividers, so it stays inside the 20 entries of [divtbl]. *)
Theorem divtable_fits_buffer (freq_out : Z) :
  50000000 <= freq_out < 2147483648 ->
  exists divtbl,
    idt_get_int_divtable freq_out false = Ok divtbl
    /\ (length divtbl <= 18)%nat.
Proof.
  intros Hf. pose proof (ns2_range_width freq_out Hf) as Hw.
  unfold idt_get_int_divtable.
  destruct (Z.eqb_spec freq_out 0); [lia|].
  destruct (ns2_range freq_out 1) as [lo hi]. cbn [fst snd] in Hw.
  eexists. split; [reflexivity|].
  pose proof (divtable_loop_length (Z.to_nat (hi + 1 - lo)) freq_out lo hi
                (skipn 1 ns1_opts)) as Hlen.
  cbn [skipn ns1_opts length] in Hlen. cbn [skipn ns1_opts]. lia.
Qed.

Lemma divtable_fits_buffer_witness :
  exists divtbl,
    idt_get_int_divtable 50000000 false = Ok divtbl
    /\ (length divtbl <= 18)%nat.
Proof. apply (divtable_fits_buffer 50000000). lia. Defined.

(** ** The NS1 and NS2 register values *)

(** X4: for a positive divider selected from the table, the NS1 ratio and
    the NS2 value computed from it give the divider back: either NS2 is 0
    (bypass) and the ratio is the divider itself, or
    [ns1_ratio * ns2 * 2 = max_div]. *)
Theorem ns_registers_reproduce_divider (freq_out : Z) (divtbl : list Z) :
  idt_get_int_divtable freq_out false = Ok divtbl ->
  0 < max_div_of divtbl ->
  exists ns1,
    ns1_select (max_div_of divtbl) = Some ns1
    /\ In ns1 [0; 1; 2]
    /\ let ns1_ratio := ns1_ratio_of ns1 in
       let ns2 := Z.quot (Z.quot (max_div_of divtbl) ns1_ratio) 2 in
       (ns2 = 0 /\ ns1_ratio = max_div_of divtbl)
       \/ (0 < ns2 /\ ns1_ratio * ns2 * 2 = max_div_of divtbl).
Proof.
  intros Htbl Hpos.
  destruct (max_div_of_In divtbl) as [H0 | Hin]; [lia|].
  set (d := max_div_of divtbl) in *.
  assert (Hshape : In d [4; 5; 6]
                   \/ (8 <= d /\ (Z.rem d 8 = 0 \/ Z.rem d 10 = 0
                                  \/ Z.rem d 12 = 0))).
  { destruct (divtable_entry_shape _ _ _ Htbl Hin)
      as [H456 | (ns2 & opt & Hopt & Hd & _)]; [left; exact H456|].
    right. cbn in Hopt.
    destruct Hopt as [<- | [<- | [<- | []]]];
      (split; [lia|]); [left | right; left | right; right];
      rewrite Hd; Z.to_euclidean_division_equations; lia. }
  unfold ns1_select.
  destruct Hshape as [H456 | [H8 Hdiv]].
  - cbn in H456. destruct H456 as [<- | [<- | [<- | []]]];
      cbn; eexists; (split; [reflexivity|]); (split; [tauto|]);
      left; split; reflexivity.
  - destruct (Z.eqb_spec d 4); [lia|]. destruct (Z.eqb_spec d 5); [lia|].
    destruct (Z.eqb_spec d 6); [lia|]. cbn [orb].
    destruct (Z.eqb_spec (Z.rem d 12) 0) as [H12|H12].
    + exists 1. split; [reflexivity|].
      split; [cbn; tauto|]. cbv zeta. change (ns1_ratio_of 1) with 6. right.
      Z.to_euclidean_division_equations; lia.
    + destruct (Z.eqb_spec (Z.rem d 10) 0) as [H10|H10].
      * exists 0. split; [reflexivity|].
        split; [cbn; tauto|]. cbv zeta. change (ns1_ratio_of 0) with 5. right.
        Z.to_euclidean_division_equations; lia.
      * destruct (Z.eqb_spec (Z.rem d 8) 0) as [H8'|H8']; [|exfalso; tauto].
        exists 2. split; [reflexivity|].
        split; [cbn; tauto|]. cbv zeta. change (ns1_ratio_of 2) with 4. right.
        Z.to_euclidean_division_equations; lia.
Qed.

Lemma ns_registers_reproduce_divider_witness :
  exists ns1,
    ns1_select (max_div_of [24; 24; 30; 32]) = Some ns1
    /\ In ns1 [0; 1; 2]
    /\ let ns1_ratio := ns1_ratio_of ns1 in
       let ns2 := Z.quot (Z.quot (max_div_of [24; 24; 30; 32]) ns1_ratio) 2 in
       (ns2 = 0 /\ ns1_ratio = max_div_of [24; 24; 30; 32])
       \/ (0 < ns2 /\ ns1_ratio * ns2 * 2 = max_div_of [24; 24; 30; 32]).
Proof.
  apply (ns_registers_reproduce_divider 125000000).
  - vm_compute. reflexivity.
  - vm_compute. reflexivity.
Defined.

(** ** The settings of a target in the documented range *)

(** X5: for a target between 8 kHz and 400 MHz the returned settings have a
    zero output-divider fraction, an output-divider integer between 4 and
    250000 (inside its 18-bit field), and [freq_out * 2 * n_qx], the VCO
    frequency the rest of the calculation uses, lies between 3 GHz and
    4 GHz. *)
Theorem declared_target_output_divider
    (freq_in freq_out : Z) (s : idt_settings) :
  8000 <= freq_out <= 400000000 ->
  idt_cal_settings freq_in freq_out = Ok s ->
  nfrac_qx s = 0
  /\ 4 <= n_qx s <= 250000
  /\ 3000000000 <= freq_out * (2 * n_qx s) <= 4000000000
  /\ exists divtbl,
       idt_get_int_divtable freq_out false = Ok divtbl
       /\ to_u32 (freq_out * max_div_of divtbl) = freq_out * (2 * n_qx s).
Proof.
  intros Hf Hs.
  destruct (idt_cal_settings_ok _ _ _ Hs)
    as (divtbl & ns1 & st & m & p & los & Htbl & _ & _ & _ & _ & _ & ->).
  cbn [nfrac_qx n_qx].
  destruct (declared_target_table freq_out Hf) as (divtbl' & Htbl' & _ & Hmax).
  rewrite Htbl in Htbl'. injection Htbl' as <-.
  destruct (divtable_entry_declared freq_out _ divtbl Hf Htbl Hmax)
    as (Hvco & Hd & Hev).
  rewrite (outdiv_split_even (max_div_of divtbl) ltac:(lia) Hev).
  cbn [fst snd].
  assert (Hhalf : 2 * (max_div_of divtbl / 2) = max_div_of divtbl).
  { pose proof (Zmod_even (max_div_of divtbl)) as Hm. rewrite Hev in Hm.
    Z.to_euclidean_division_equations; lia. }
  split; [reflexivity|].
  split; [Z.to_euclidean_division_equations; lia|].
  rewrite Hhalf. split; [exact Hvco|].
  exists divtbl. split; [exact Htbl|]. apply to_u32_small. lia.
Qed.

Lemma declared_target_output_divider_witness :
  exists s,
    idt_cal_settings 40000000 148500000 = Ok s
    /\ nfrac_qx s = 0
    /\ 4 <= n_qx s <= 250000
    /\ 3000000000 <= 148500000 * (2 * n_qx s) <= 4000000000
    /\ exists divtbl,
         idt_get_int_divtable 148500000 false = Ok divtbl
         /\ to_u32 (148500000 * max_div_of divtbl)
            = 148500000 * (2 * n_qx s).
Proof.
  eexists. split; [vm_compute; reflexivity|].
  eapply (declared_target_output_divider 40000000 148500000).
  - lia.
  - vm_compute. reflexivity.
Defined.

(** ** Accuracy and range of the DSM fields *)

Lemma upper_fb_split_accuracy (fvco : Z) :
  0 <= fvco < 4294967296 ->
  let dsm_int := to_u16 (fst (upper_fb_split fvco)) in
  let dsm_frac := to_u32 (snd (upper_fb_split fvco)) in
  0 <= dsm_frac <= 2097152
  /\ Z.abs ((dsm_int * 2097152 + dsm_frac) * 80000000 - fvco * 2097152)
     <= 40000000
  /\ (dsm_frac = 2097152 <-> 79999981 <= fvco mod 80000000).
Proof.
  intros Hf. unfold upper_fb_split. cbn [fst snd].
  change (to_u32 (2 * IDT_8T49N24X_XTAL_FREQ)) with 80000000.
  change (Z.shiftr 78125 1) with 39062.
  cbv zeta. repeat split; wrap_lia.
Qed.

(** X6: the DSM pair approximates [fvco / 80 MHz] to half a unit of its
    last place: [80 MHz * (dsm_int + dsm_frac / 2^21)] differs from [fvco]
    by at most [40 MHz / 2^21] (about 19 Hz); [dsm_frac] never exceeds
    [2^21]. *)
Theorem dsm_pair_accuracy (freq_in freq_out : Z) (s : idt_settings) :
  idt_cal_settings freq_in freq_out = Ok s ->
  exists divtbl,
    idt_get_int_divtable freq_out false = Ok divtbl
    /\ let fvco := to_u32 (freq_out * max_div_of divtbl) in
       0 <= dsm_frac s <= 2 ^ 21
       /\ Z.abs ((dsm_int s * 2 ^ 21 + dsm_frac s) * 80000000 - fvco * 2 ^ 21)
          <= 40000000.
Proof.
  intros Hs.
  destruct (idt_cal_settings_ok _ _ _ Hs)
    as (divtbl & ns1 & st & m & p & los & Htbl & _ & _ & _ & _ & _ & ->).
  exists divtbl. split; [exact Htbl|]. cbn [dsm_int dsm_frac].
  pose proof (to_u32_range (freq_out * max_div_of divtbl)) as Hr.
  destruct (upper_fb_split_accuracy _ Hr) as (Hb & Hacc & _).
  change (2 ^ 21) with 2097152. split; assumption.
Qed.

Lemma dsm_pair_accuracy_witness :
  exists s,
    idt_cal_settings 40000000 148500000 = Ok s
    /\ exists divtbl,
         idt_get_int_divtable 148500000 false = Ok divtbl
         /\ let fvco := to_u32 (148500000 * max_div_of divtbl) in
            0 <= dsm_frac s <= 2 ^ 21
            /\ Z.abs ((dsm_int s * 2 ^ 21 + dsm_frac s) * 80000000
                      - fvco * 2 ^ 21) <= 40000000.
Proof.
  eexists. split; [vm_compute; reflexivity|].
  eapply (dsm_pair_accuracy 40000000 148500000).
  vm_compute. reflexivity.
Defined.

(** X7: [dsm_frac] reaches [2^21], one more than its 21-bit field holds,
    exactly when the remainder of [fvco] by 80 MHz is 79999981 or more; the
    three bytes [idt_dsm_frac] then writes are those of a zero fraction.
    The target 204999999 Hz, inside the documented range, selects the
    divider 16 and is such a case. *)
Theorem dsm_frac_overflows_field :
  (forall fvco,
     0 <= fvco < 4294967296 ->
     (to_u32 (snd (upper_fb_split fvco)) = 2 ^ 21
      <-> 79999981 <= fvco mod 80000000))
  /\ (to_u8 (Z.land (Z.shiftr (2 ^ 21) 16) 0x1f) = 0
      /\ to_u8 (Z.shiftr (2 ^ 21) 8) = 0
      /\ to_u8 (Z.land (2 ^ 21) 0xff) = 0)
  /\ (idt_get_int_divtable 204999999 false = Ok [16]
      /\ to_u32 (snd (upper_fb_split (to_u32 (204999999 * max_div_of [16]))))
         = 2 ^ 21).
Proof.
  split; [|split].
  - intros fvco Hf.
    destruct (upper_fb_split_accuracy _ Hf) as (_ & _ & Hiff). exact Hiff.
  - repeat split; vm_compute; reflexivity.
  - split; vm_compute; reflexivity.
Qed.

(** ** The loss-of-signal divider *)

(** X8: for a positive reference the loss-of-signal value is
    [fvco / 8 / freq_in + 3], raised to 6 when it is smaller; for a reference
    of 8 kHz or more it is at most 67111 and fits its 17-bit field. *)
Theorem los_value (freq_in freq_out : Z) (s : idt_settings) :
  0 < freq_in < 2147483648 ->
  idt_cal_settings freq_in freq_out = Ok s ->
  exists divtbl,
    idt_get_int_divtable freq_out false = Ok divtbl
    /\ let fvco := to_u32 (freq_out * max_div_of divtbl) in
       los_x s = Z.max 6 (fvco / 8 / freq_in + 3)
       /\ (8000 <= freq_in -> 6 <= los_x s <= 67111).
Proof.
  intros Hin Hs.
  destruct (idt_cal_settings_ok _ _ _ Hs)
    as (divtbl & ns1 & st & m & p & los & Htbl & _ & _ & _ & _ & Hlos & ->).
  exists divtbl. split; [exact Htbl|]. cbn [los_x].
  pose proof (to_u32_range (freq_out * max_div_of divtbl)) as Hr.
  set (fvco := to_u32 (freq_out * max_div_of divtbl)) in *.
  unfold los_of in Hlos. rewrite (to_u32_small freq_in) in Hlos by lia.
  destruct (Z.eqb_spec freq_in 0); [lia|].
  assert (Hq : 0 <= fvco / 8 / freq_in <= 536870911).
  { split.
    - apply Z.div_pos; [|lia]. apply Z.div_pos; lia.
    - transitivity (fvco / 8); [|Z.to_euclidean_division_equations; lia].
      apply Z.div_le_upper_bound; [lia|].
      assert (0 <= fvco / 8) by (apply Z.div_pos; lia). nia. }
  rewrite (to_int_small (fvco / 8 / freq_in)) in Hlos by lia.
  rewrite to_int_small in Hlos by lia.
  injection Hlos as <-. cbv zeta.
  assert (H8k : 8000 <= freq_in -> fvco / 8 / freq_in < 67109).
  { intros H8. apply Z.div_lt_upper_bound; [lia|].
    assert (fvco / 8 <= 536870911) by (Z.to_euclidean_division_equations; lia).
    nia. }
  destruct (Z.ltb_spec (fvco / 8 / freq_in + 3) 6);
    (rewrite to_u32_small by lia); split; try lia.
Qed.

Lemma los_value_witness :
  exists s,
    idt_cal_settings 40000000 148500000 = Ok s
    /\ exists divtbl,
         idt_get_int_divtable 148500000 false = Ok divtbl
         /\ let fvco := to_u32 (148500000 * max_div_of divtbl) in
            los_x s = Z.max 6 (fvco / 8 / 40000000 + 3)
            /\ (8000 <= 40000000 -> 6 <= los_x s <= 67111).
Proof.
  eexists. split; [vm_compute; reflexivity|].
  eapply (los_value 40000000 148500000).
  - lia.
  - vm_compute. reflexivity.
Defined.

(** ** What the lower-loop search returns *)

Lemma scan_inv_post (fvco freq_in lo i : Z) (st : scan_state) :
  scan_inv fvco freq_in lo i st -> scan_post fvco freq_in lo st.
Proof.
  unfold scan_inv, scan_post. intros [HA HC].
  destruct (p_default st) as [p|]; [|exact HC].
  destruct HC as (Hp & HpM & m1 & e & Hm1 & HM & Hdef & He & Herr & Hbest).
  split; [lia|]. exists m1, e. repeat split; try assumption; try lia.
  intros p' Hp'.
  destruct (HA p' ltac:(lia)) as (e1 & Hpe1 & Hnz & _).
  destruct (Hbest p' Hp') as (e2 & Hpe2 & Hlt).
  rewrite Hpe1 in Hpe2. injection Hpe2 as <-.
  exists e1. repeat split; try assumption. right. exact Hlt.
Qed.

Lemma scan_body_keeps_inv (fvco freq_in lo i : Z) (st : scan_state)
    (next : scan_next) :
  lo <= i <= IDT_8T49N24X_P_MAX ->
  scan_inv fvco freq_in lo i st ->
  scan_body fvco freq_in i st = Ok next ->
  match next with
  | Continue st' => scan_inv fvco freq_in lo (i + 1) st'
  | Break st' => scan_post fvco freq_in lo st'
  end.
Proof.
  intros Hi Hinv. pose proof Hinv as [HA HC]. unfold scan_body.
  destruct (scan_m1 fvco freq_in i) as [m1|] eqn:Hm1; [|discriminate].
  cbn [bind]. pose proof (scan_m1_nonneg _ _ _ _ Hm1) as Hm0.
  destruct (Z.ltb_spec m1 IDT_8T49N24X_M_MAX) as [HM|HM].
  2:{ intros H; injection H as <-. apply (scan_inv_post _ _ _ i). exact Hinv. }
  destruct (scan_error_tmp fvco freq_in i m1) as [e|] eqn:He; [|discriminate].
  cbn [bind].
  assert (Hpe : pass_error fvco freq_in i = Some e).
  { unfold pass_error. rewrite Hm1.
    destruct (Z.ltb_spec m1 IDT_8T49N24X_M_MAX); [|lia]. rewrite He.
    reflexivity. }
  destruct (Z.eqb_spec e 0) as [He0|He0].
  - rewrite orb_true_r. intros H; injection H as <-.
    unfold scan_post. cbn [p_default m1_default error].
    split; [lia|]. exists m1, e. repeat split; try assumption; try lia.
    intros p' Hp'. destruct (HA p' Hp') as (e' & Hpe' & Hnz & _).
    exists e'. repeat split; try assumption. left. exact He0.
  - rewrite orb_false_r.
    destruct (Z.ltb_spec (c_abs e) (error st)) as [Hlt|Hge];
      intros H; injection H as <-.
    + split; cbn [p_default m1_default error].
      * intros p' Hp'. destruct (Z.eq_dec p' i) as [-> | Hne].
        -- exists e. repeat split; try assumption. lia.
        -- destruct (HA p' ltac:(lia)) as (e' & Hpe' & Hnz & Hle).
           exists e'. repeat split; try assumption. lia.
      * split; [lia|]. split; [lia|]. exists m1, e.
        repeat split; try assumption; try lia.
        intros p' Hp'. destruct (HA p' Hp') as (e' & Hpe' & _ & Hle).
        exists e'. split; [assumption|lia].
    + split.
      * intros p' Hp'. destruct (Z.eq_dec p' i) as [-> | Hne].
        -- exists e. repeat split; try assumption.
        -- destruct (HA p' ltac:(lia)) as (e' & Hpe' & Hnz & Hle).
           exists e'. repeat split; assumption.
      * destruct (p_default st) as [p|]; [|exact HC].
        destruct HC as (Hp & HpM & Hrest). split; [lia|]. split; assumption.
Qed.

Lemma scan_loop_post (fuel : nat) (fvco freq_in lo i : Z)
    (st st' : scan_state) :
  lo <= i ->
  scan_inv fvco freq_in lo i st ->
  scan_loop fuel fvco freq_in i st = Ok st' ->
  scan_post fvco freq_in lo st'.
Proof.
  revert i st. induction fuel as [|fuel IH]; intros i st Hi Hinv;
    cbn [scan_loop].
  - intros H; injection H as <-. apply (scan_inv_post _ _ _ i). exact Hinv.
  - destruct (Z.leb_spec i IDT_8T49N24X_P_MAX) as [Hle|_].
    + destruct (scan_body fvco freq_in i st) as [next|] eqn:Hbody;
        [|discriminate].
      cbn [bind].
      pose proof (scan_body_keeps_inv _ _ lo _ _ _ (conj Hi Hle) Hinv Hbody)
        as Hnext.
      destruct next as [st1|st1].
      * apply IH; [lia | exact Hnext].
      * intros H; injection H as <-. exact Hnext.
    + intros H; injection H as <-. apply (scan_inv_post _ _ _ i). exact Hinv.
Qed.

Lemma feedback_scan_post (fvco freq_in : Z) (st : scan_state) :
  feedback_scan fvco freq_in = Ok st ->
  scan_post fvco freq_in (p_min_of freq_in) st.
Proof.
  unfold feedback_scan. apply scan_loop_post; [lia|].
  split; [intros p' Hp'; lia | reflexivity].
Qed.

Lemma pass_error_of (fvco freq_in p m1 e : Z) :
  scan_m1 fvco freq_in p = Ok m1 ->
  m1 < IDT_8T49N24X_M_MAX ->
  scan_error_tmp fvco freq_in p m1 = Ok e ->
  pass_error fvco freq_in p = Some e.
Proof.
  intros Hm1 HM He. unfold pass_error. rewrite Hm1.
  destruct (Z.ltb_spec m1 IDT_8T49N24X_M_MAX); [|lia].
  rewrite He. reflexivity.
Qed.

(** a pass that leaves the loop does so on a zero error, which it keeps, or
    on a multiplier that is not below [M_MAX], which keeps nothing *)
Lemma scan_body_break (fvco freq_in lo i : Z) (st st' : scan_state) :
  lo <= i <= IDT_8T49N24X_P_MAX ->
  scan_inv fvco freq_in lo i st ->
  scan_body fvco freq_in i st = Ok (Break st') ->
  exists hi, i - 1 <= hi /\ scan_ended fvco freq_in lo hi st'.
Proof.
  intros Hi [HA HC]. unfold scan_body.
  destruct (scan_m1 fvco freq_in i) as [m1|] eqn:Hm1; [|discriminate].
  cbn [bind].
  destruct (Z.ltb_spec m1 IDT_8T49N24X_M_MAX) as [HM|HM].
  - destruct (scan_error_tmp fvco freq_in i m1) as [e|] eqn:He;
      [|discriminate].
    cbn [bind]. pose proof (pass_error_of _ _ _ _ _ Hm1 HM He) as Hpe.
    destruct (Z.eqb_spec e 0) as [He0|He0].
    + rewrite orb_true_r. intros H; injection H as <-.
      exists i. split; [lia|]. unfold scan_ended. cbn [p_default error].
      split; [lia|]. split.
      * intros p Hp. injection Hp as <-. lia.
      * left. subst e. split; [exact Hpe|]. split; [reflexivity|].
        intros p' Hp'. destruct (HA p' Hp') as (e' & Hpe' & Hnz & _).
        exists e'. split; assumption.
    + rewrite orb_false_r.
      destruct (c_abs e <? error st); discriminate.
  - intros H; injection H as <-.
    exists (i - 1). split; [lia|]. unfold scan_ended.
    split; [lia|]. split.
    + intros p Hp. rewrite Hp in HC. lia.
    + right. split.
      * right. exists m1. replace (i - 1 + 1) with i by lia.
        split; assumption.
      * intros p' Hp'. apply HA. lia.
Qed.

Lemma scan_inv_ended (fvco freq_in lo : Z) (st : scan_state) :
  scan_inv fvco freq_in lo (IDT_8T49N24X_P_MAX + 1) st ->
  scan_ended fvco freq_in lo IDT_8T49N24X_P_MAX st.
Proof.
  intros [HA HC]. unfold scan_ended. split; [lia|]. split.
  - intros p Hp. rewrite Hp in HC. lia.
  - right. split; [left; reflexivity|].
    intros p' Hp'. apply HA. lia.
Qed.

Lemma scan_loop_ended (fuel : nat) (fvco freq_in lo i : Z)
    (st st' : scan_state) :
  lo <= i <= IDT_8T49N24X_P_MAX + 1 ->
  IDT_8T49N24X_P_MAX + 1 - i <= Z.of_nat fuel ->
  scan_inv fvco freq_in lo i st ->
  scan_loop fuel fvco freq_in i st = Ok st' ->
  exists hi, i - 1 <= hi /\ scan_ended fvco freq_in lo hi st'.
Proof.
  revert i st. induction fuel as [|fuel IH]; intros i st Hi Hfuel Hinv;
    cbn [scan_loop].
  - intros H; injection H as <-.
    assert (Hend : i = IDT_8T49N24X_P_MAX + 1) by lia. subst i.
    exists IDT_8T49N24X_P_MAX. split; [lia|].
    apply scan_inv_ended. exact Hinv.
  - destruct (Z.leb_spec i IDT_8T49N24X_P_MAX) as [Hle|Hgt].
    + destruct (scan_body fvco freq_in i st) as [next|] eqn:Hbody;
        [|discriminate].
      cbn [bind]. destruct next as [st1|st1].
      * pose proof (scan_body_keeps_inv _ _ lo _ _ _ (conj (proj1 Hi) Hle)
                      Hinv Hbody) as Hnext.
        intros Hrun.
        destruct (IH (i + 1) st1 ltac:(lia) ltac:(lia) Hnext Hrun)
          as (hi & Hhi & Hend).
        exists hi. split; [lia | exact Hend].
      * intros H; injection H as <-.
        apply (scan_body_break _ _ lo i st); [lia | exact Hinv | exact Hbody].
    + intros H; injection H as <-.
      assert (Hend : i = IDT_8T49N24X_P_MAX + 1) by lia. subst i.
      exists IDT_8T49N24X_P_MAX. split; [lia|].
      apply scan_inv_ended. exact Hinv.
Qed.

Lemma feedback_scan_ended (fvco freq_in : Z) (st : scan_state) :
  p_min_of freq_in <= IDT_8T49N24X_P_MAX + 1 ->
  feedback_scan fvco freq_in = Ok st ->
  exists hi, p_min_of freq_in - 1 <= hi
             /\ scan_ended fvco freq_in (p_min_of freq_in) hi st.
Proof.
  intros Hlo Hscan. unfold feedback_scan in Hscan. cbv zeta in Hscan.
  assert (Hinit : scan_inv fvco freq_in (p_min_of freq_in) (p_min_of freq_in)
                    scan_init).
  { split; [intros p' Hp'; lia | reflexivity]. }
  assert (Hfuel : IDT_8T49N24X_P_MAX + 1 - p_min_of freq_in
                  <= Z.of_nat (Z.to_nat (IDT_8T49N24X_P_MAX + 1
                                         - p_min_of freq_in))) by lia.
  destruct (scan_loop_ended _ fvco freq_in (p_min_of freq_in)
              (p_min_of freq_in) scan_init st (conj (Z.le_refl _) Hlo)
              Hfuel Hinit Hscan) as (hi & Hhi & Hend).
  exists hi. split; assumption.
Qed.

Lemma scan_body_beats_initial (fvco freq_in i : Z) (st : scan_state)
    (next : scan_next) :
  beats_initial st ->
  scan_body fvco freq_in i st = Ok next ->
  beats_initial match next with Continue st' | Break st' => st' end.
Proof.
  intros Hst. unfold scan_body.
  destruct (scan_m1 fvco freq_in i) as [m1|]; [|discriminate]. cbn [bind].
  destruct (m1 <? IDT_8T49N24X_M_MAX).
  2:{ intros H; injection H as <-. exact Hst. }
  destruct (scan_error_tmp fvco freq_in i m1) as [e|]; [|discriminate].
  cbn [bind].
  assert (Hle : error st <= error scan_init).
  { unfold beats_initial in Hst. destruct (p_default st); lia. }
  destruct (Z.eqb_spec e 0) as [He0|He0].
  - rewrite orb_true_r. intros H; injection H as <-. subst e.
    unfold beats_initial. cbn [p_default error]. reflexivity.
  - rewrite orb_false_r.
    destruct (Z.ltb_spec (c_abs e) (error st)) as [Hlt|Hge];
      intros H; injection H as <-.
    + unfold beats_initial. cbn [p_default error]. lia.
    + exact Hst.
Qed.

Lemma scan_loop_beats_initial (fuel : nat) (fvco freq_in i : Z)
    (st st' : scan_state) :
  beats_initial st ->
  scan_loop fuel fvco freq_in i st = Ok st' ->
  beats_initial st'.
Proof.
  revert i st. induction fuel as [|fuel IH]; intros i st Hst;
    cbn [scan_loop].
  - intros H; injection H as <-. exact Hst.
  - destruct (i <=? IDT_8T49N24X_P_MAX).
    + destruct (scan_body fvco freq_in i st) as [next|] eqn:Hbody;
        [|discriminate].
      cbn [bind].
      pose proof (scan_body_beats_initial _ _ _ _ _ Hst Hbody) as Hnext.
      destruct next as [st1|st1].
      * apply IH. exact Hnext.
      * intros H; injection H as <-. exact Hnext.
    + intros H; injection H as <-. exact Hst.
Qed.

(** X10: the pre-divider the search returns is the first one with the
    smallest error among all the pre-dividers the scan examines.  The scan
    examines every pre-divider from [p_min] to some [hi]: it stops at the
    first zero error ([hi] is then the returned pre-divider), and otherwise
    runs to [P_MAX] or to the last pre-divider before a multiplier that is
    not below [M_MAX].  Every pre-divider before the returned one had a
    nonzero error, strictly larger unless the returned error is zero; every
    later one up to [hi] had a nonzero error that is not smaller; and the
    returned error is below the initial 99999999.  The scan keeps no pair
    only when every error it computed is nonzero and not below 99999999 in
    absolute value. *)
Theorem search_returns_first_best (fvco freq_in : Z) (st : scan_state) :
  -2147483648 <= freq_in < 2147483648 ->
  feedback_scan fvco freq_in = Ok st ->
  exists hi,
    p_min_of freq_in - 1 <= hi <= IDT_8T49N24X_P_MAX
    /\ match p_default st with
       | Some p =>
           exists m1 e,
             p_min_of freq_in <= p <= hi
             /\ scan_m1 fvco freq_in p = Ok m1
             /\ m1_default st = Some (to_int m1)
             /\ scan_error_tmp fvco freq_in p m1 = Ok e
             /\ error st = c_abs e
             /\ c_abs e < 99999999
             /\ (forall p', p_min_of freq_in <= p' < p ->
                   exists e', pass_error fvco freq_in p' = Some e'
                              /\ e' <> 0 /\ (e = 0 \/ c_abs e < c_abs e'))
             /\ (forall p', p < p' <= hi ->
                   exists e', pass_error fvco freq_in p' = Some e'
                              /\ e' <> 0 /\ c_abs e <= c_abs e')
             /\ (e = 0 -> hi = p)
             /\ (e <> 0 ->
                 hi = IDT_8T49N24X_P_MAX
                 \/ exists m, scan_m1 fvco freq_in (hi + 1) = Ok m
                              /\ IDT_8T49N24X_M_MAX <= m)
       | None =>
           st = scan_init
           /\ (forall p', p_min_of freq_in <= p' <= hi ->
                 exists e', pass_error fvco freq_in p' = Some e'
                            /\ e' <> 0 /\ 99999999 <= c_abs e')
           /\ (hi = IDT_8T49N24X_P_MAX
               \/ exists m, scan_m1 fvco freq_in (hi + 1) = Ok m
                            /\ IDT_8T49N24X_M_MAX <= m)
       end.
Proof.
  intros Hin Hscan.
  pose proof (p_min_of_int_range freq_in Hin) as Hpm.
  pose proof (feedback_scan_post _ _ _ Hscan) as Hpost.
  assert (Hbeat : beats_initial st).
  { unfold feedback_scan in Hscan.
    eapply scan_loop_beats_initial; [|exact Hscan]. reflexivity. }
  assert (Hlo : p_min_of freq_in <= IDT_8T49N24X_P_MAX + 1)
    by (unfold IDT_8T49N24X_P_MAX; lia).
  destruct (feedback_scan_ended _ _ _ Hlo Hscan)
    as (hi & Hhi & HhiM & Hkept & Hend).
  exists hi. split; [lia|].
  unfold scan_post in Hpost. unfold beats_initial in Hbeat.
  destruct (p_default st) as [p|] eqn:Hp.
  - destruct Hpost
      as (Hrange & m1 & e & Hm1 & HM & Hdef & He & Herr & Hbest).
    pose proof (pass_error_of _ _ _ _ _ Hm1 (proj2 HM) He) as Hpe.
    rewrite Herr in Hbeat.
    pose proof (Hkept p eq_refl) as Hphi.
    exists m1, e.
    split; [lia|]. split; [exact Hm1|]. split; [exact Hdef|].
    split; [exact He|]. split; [exact Herr|]. split; [exact Hbeat|].
    split; [exact Hbest|].
    destruct Hend as [(Hz & Hdefhi & _) | (Hstop & Hall)].
    + injection Hdefhi as ->.
      rewrite Hpe in Hz. injection Hz as ->.
      split; [intros p' Hp'; lia|].
      split; [reflexivity | intros Hne; contradiction].
    + destruct (Hall p ltac:(lia)) as (e0 & Hpe0 & Hnz & _).
      rewrite Hpe in Hpe0. injection Hpe0 as <-.
      split.
      * intros p' Hp'.
        destruct (Hall p' ltac:(lia)) as (e' & Hpe' & Hnz' & Hle).
        exists e'. rewrite <- Herr. repeat split; assumption.
      * split; [intros He0; contradiction | intros _; exact Hstop].
  - destruct Hend as [(_ & Hdefhi & _) | (Hstop & Hall)]; [discriminate|].
    split.
    + destruct st as [err md pd]. cbn in Hp, Hpost, Hbeat. subst.
      reflexivity.
    + split; [|exact Hstop].
      intros p' Hp'. destruct (Hall p' Hp') as (e' & Hpe' & Hnz' & Hle).
      exists e'. rewrite Hbeat in Hle. repeat split; assumption.
Qed.

Lemma search_returns_first_best_witness :
  exists st,
    feedback_scan 3564000000 40000000 = Ok st
    /\ p_default st = Some 320
    /\ exists hi,
         p_min_of 40000000 - 1 <= hi <= IDT_8T49N24X_P_MAX
         /\ match p_default st with
            | Some p =>
                exists m1 e,
                  p_min_of 40000000 <= p <= hi
                  /\ scan_m1 3564000000 40000000 p = Ok m1
                  /\ m1_default st = Some (to_int m1)
                  /\ scan_error_tmp 3564000000 40000000 p m1 = Ok e
                  /\ error st = c_abs e
                  /\ c_abs e < 99999999
                  /\ (forall p', p_min_of 40000000 <= p' < p ->
                        exists e',
                          pass_error 3564000000 40000000 p' = Some e'
                          /\ e' <> 0 /\ (e = 0 \/ c_abs e < c_abs e'))
                  /\ (forall p', p < p' <= hi ->
                        exists e',
                          pass_error 3564000000 40000000 p' = Some e'
                          /\ e' <> 0 /\ c_abs e <= c_abs e')
                  /\ (e = 0 -> hi = p)
                  /\ (e <> 0 ->
                      hi = IDT_8T49N24X_P_MAX
                      \/ exists m,
                           scan_m1 3564000000 40000000 (hi + 1) = Ok m
                           /\ IDT_8T49N24X_M_MAX <= m)
            | None =>
                st = scan_init
                /\ (forall p', p_min_of 40000000 <= p' <= hi ->
                      exists e',
                        pass_error 3564000000 40000000 p' = Some e'
                        /\ e' <> 0 /\ 99999999 <= c_abs e')
                /\ (hi = IDT_8T49N24X_P_MAX
                    \/ exists m,
                         scan_m1 3564000000 40000000 (hi + 1) = Ok m
                         /\ IDT_8T49N24X_M_MAX <= m)
            end.
Proof.
  eexists. split; [vm_compute; reflexivity|].
  split; [reflexivity|].
  apply (search_returns_first_best 3564000000 40000000).
  - lia.
  - vm_compute. reflexivity.
Defined.

(** X9: for a positive reference the returned multiplier is the quotient
    [fvco * pre_x / freq_in] rounded half up, so [fvco * pre_x] and
    [m1_x * freq_in] differ by at most half of [freq_in]. *)
Theorem multiplier_is_rounded_quotient
    (freq_in freq_out : Z) (s : idt_settings) :
  0 < freq_in < 2147483648 ->
  idt_cal_settings freq_in freq_out = Ok s ->
  exists divtbl,
    idt_get_int_divtable freq_out false = Ok divtbl
    /\ let fvco := to_u32 (freq_out * max_div_of divtbl) in
       m1_x s = (fvco * pre_x s + freq_in / 2) / freq_in
       /\ 2 * Z.abs (fvco * pre_x s - m1_x s * freq_in) <= freq_in.
Proof.
  intros Hin Hs.
  destruct (idt_cal_settings_ok _ _ _ Hs)
    as (divtbl & ns1 & st & m & p & los & Htbl & _ & Hscan & Hm & Hp & _ & ->).
  exists divtbl. split; [exact Htbl|]. cbn [m1_x pre_x].
  pose proof (to_u32_range (freq_out * max_div_of divtbl)) as Hr.
  set (fvco := to_u32 (freq_out * max_div_of divtbl)) in *.
  apply feedback_scan_post in Hscan. unfold scan_post in Hscan.
  rewrite Hp, Hm in Hscan.
  destruct Hscan as (Hpb & m1 & e & Hm1 & HM & Hdef & _).
  injection Hdef as ->.
  assert (Hp0 : 0 <= p_min_of freq_in).
  { unfold p_min_of, IDT_8T49N24X_FPD_MAX.
    Z.to_euclidean_division_equations; lia. }
  unfold IDT_8T49N24X_P_MAX, IDT_8T49N24X_M_MAX in *.
  rewrite scan_m1_exact in Hm1 by (unfold IDT_8T49N24X_P_MAX; lia).
  injection Hm1 as Hm1.
  rewrite (to_int_small m1), (to_u32_small m1), (to_u32_small p) by lia.
  cbv zeta. split; [symmetry; exact Hm1|].
  pose proof (rounded_quotient_residue (fvco * p) freq_in ltac:(lia)) as Hup.
  cbv zeta in Hup. rewrite Hm1 in Hup.
  assert (Hlow : m1 * freq_in <= fvco * p + freq_in / 2).
  { rewrite <- Hm1. rewrite Z.mul_comm. apply Z.mul_div_le. lia. }
  assert (Hhalf : 2 * (freq_in / 2) <= freq_in)
    by (Z.to_euclidean_division_equations; lia).
  lia.
Qed.

Lemma multiplier_is_rounded_quotient_witness :
  exists s,
    idt_cal_settings 40000000 148500000 = Ok s
    /\ exists divtbl,
         idt_get_int_divtable 148500000 false = Ok divtbl
         /\ let fvco := to_u32 (148500000 * max_div_of divtbl) in
            m1_x s = (fvco * pre_x s + 40000000 / 2) / 40000000
            /\ 2 * Z.abs (fvco * pre_x s - m1_x s * 40000000) <= 40000000.
Proof.
  eexists. split; [vm_compute; reflexivity|].
  eapply (multiplier_is_rounded_quotient 40000000 148500000).
  - lia.
  - vm_compute. reflexivity.
Defined.

(** one pass of the loop, told by the error it computes *)
Lemma scan_body_by_pass_error (fvco freq_in i e : Z) (st : scan_state) :
  pass_error fvco freq_in i = Some e ->
  exists m1,
    scan_m1 fvco freq_in i = Ok m1
    /\ if e =? 0
       then scan_body fvco freq_in i st
            = Ok (Break {| error := 0; m1_default := Some (to_int m1);
                           p_default := Some i |})
       else exists st', scan_body fvco freq_in i st = Ok (Continue st').
Proof.
  unfold pass_error, scan_body.
  destruct (scan_m1 fvco freq_in i) as [m1|]; [|discriminate].
  destruct (m1 <? IDT_8T49N24X_M_MAX) eqn:HM; [|discriminate].
  destruct (scan_error_tmp fvco freq_in i m1) as [e0|] eqn:He; [|discriminate].
  intros H; injection H as ->. exists m1. split; [reflexivity|].
  cbn [bind]. rewrite HM, He. cbn [bind].
  destruct (Z.eqb_spec e 0) as [-> | Hnz].
  - rewrite orb_true_r. reflexivity.
  - rewrite orb_false_r. destruct (c_abs e <? error st); eexists; reflexivity.
Qed.

Lemma scan_loop_stops_at_zero (fuel : nat) (fvco freq_in i p0 m1 : Z)
    (st : scan_state) :
  i <= p0 <= IDT_8T49N24X_P_MAX ->
  p0 + 1 - i <= Z.of_nat fuel ->
  (forall p', i <= p' < p0 ->
     exists e', pass_error fvco freq_in p' = Some e' /\ e' <> 0) ->
  pass_error fvco freq_in p0 = Some 0 ->
  scan_m1 fvco freq_in p0 = Ok m1 ->
  scan_loop fuel fvco freq_in i st
  = Ok {| error := 0; m1_default := Some (to_int m1); p_default := Some p0 |}.
Proof.
  revert i st. induction fuel as [|fuel IH]; intros i st Hi Hfuel Hnz Hz Hm1;
    [lia|].
  cbn [scan_loop]. destruct (Z.leb_spec i IDT_8T49N24X_P_MAX); [|lia].
  destruct (Z.eq_dec i p0) as [-> | Hne].
  - destruct (scan_body_by_pass_error _ _ _ _ st Hz) as (m1' & Hm1' & Hbody).
    cbn in Hbody. rewrite Hbody. cbn [bind]. congruence.
  - destruct (Hnz i ltac:(lia)) as (e' & Hpe & He').
    destruct (scan_body_by_pass_error _ _ _ _ st Hpe) as (m1' & _ & Hbody).
    destruct (Z.eqb_spec e' 0); [contradiction|].
    destruct Hbody as [st' Hbody]. rewrite Hbody. cbn [bind].
    apply IH; try assumption; try lia.
    intros p' Hp'. apply Hnz. lia.
Qed.

(** X16: the search stops at the first pre-divider whose error is zero:
    when every earlier pass computes a nonzero error and the pass for [p0]
    computes zero, the scan ends there with error 0, pre-divider [p0] and the
    multiplier of that pass. *)
Theorem search_stops_at_first_zero_error (fvco freq_in p0 : Z) :
  p_min_of freq_in <= p0 <= IDT_8T49N24X_P_MAX ->
  (forall p', p_min_of freq_in <= p' < p0 ->
     exists e', pass_error fvco freq_in p' = Some e' /\ e' <> 0) ->
  pass_error fvco freq_in p0 = Some 0 ->
  exists m1,
    scan_m1 fvco freq_in p0 = Ok m1
    /\ feedback_scan fvco freq_in
       = Ok {| error := 0; m1_default := Some (to_int m1);
               p_default := Some p0 |}.
Proof.
  intros Hp0 Hnz Hz.
  destruct (scan_body_by_pass_error _ _ _ _ scan_init Hz) as (m1 & Hm1 & _).
  exists m1. split; [exact Hm1|].
  unfold feedback_scan. apply scan_loop_stops_at_zero; try assumption. lia.
Qed.

Lemma search_stops_at_first_zero_error_witness :
  exists m1,
    scan_m1 3564000000 40000000 320 = Ok m1
    /\ feedback_scan 3564000000 40000000
       = Ok {| error := 0; m1_default := Some (to_int m1);
               p_default := Some 320 |}.
Proof.
  apply (search_stops_at_first_zero_error 3564000000 40000000 320).
  - change (p_min_of 40000000) with 312. unfold IDT_8T49N24X_P_MAX. lia.
  - intros p' Hp'. change (p_min_of 40000000) with 312 in Hp'.
    assert (Hcase : p' = 312 \/ p' = 313 \/ p' = 314 \/ p' = 315
                    \/ p' = 316 \/ p' = 317 \/ p' = 318 \/ p' = 319) by lia.
    destruct Hcase as [-> | [-> | [-> | [-> | [-> | [-> | [-> | ->]]]]]]];
      eexists; (split; [vm_compute; reflexivity | discriminate]).
  - vm_compute. reflexivity.
Defined.

(** * Further properties of the register programming *)

(** ** Reading fields back from the write log *)

Lemma fits_last_write (log : list reg_write) (pat : list write_pattern)
    (addr : Z) :
  Forall2 fits log pat ->
  match pattern_last pat addr with
  | Some (Some v) => last_write log addr = Some v
  | Some None => exists v, last_write log addr = Some v
  | None => last_write log addr = None
  end.
Proof.
  induction 1 as [|w p log pat [Ha Hv] _ IH]; cbn [pattern_last last_write];
    [reflexivity|].
  destruct (pattern_last pat addr) as [[v|]|].
  - rewrite IH. reflexivity.
  - destruct IH as [v ->]. exists v. reflexivity.
  - rewrite IH, Ha. destruct (fst p =? addr); [|reflexivity].
    destruct (snd p) as [v|]; [rewrite Hv; reflexivity|].
    exists (snd w). reflexivity.
Qed.

(** the byte slices the encoders take, as quotients and remainders *)
Lemma field_21_bits (v : Z) :
  ((0 * 256 + to_u8 (Z.land (Z.shiftr v 16) 0x1f)) * 256
   + to_u8 (Z.shiftr v 8)) * 256 + to_u8 (Z.land v 0xff) = v mod 2 ^ 21.
Proof.
  change 0x1f with (Z.ones 5). change 0xff with (Z.ones 8).
  rewrite !Z.land_ones, !Z.shiftr_div_pow2 by lia.
  change (2 ^ 5) with 32. change (2 ^ 21) with 2097152.
  change (2 ^ 16) with 65536. wrap_lia.
Qed.

Lemma field_24_bits (v : Z) :
  ((0 * 256 + to_u8 (Z.shiftr v 16)) * 256
   + to_u8 (Z.shiftr v 8)) * 256 + to_u8 (Z.land v 0xff) = v mod 2 ^ 24.
Proof.
  change 0xff with (Z.ones 8).
  rewrite !Z.land_ones, !Z.shiftr_div_pow2 by lia.
  change (2 ^ 24) with 16777216. change (2 ^ 16) with 65536. wrap_lia.
Qed.

Lemma field_9_bits (v : Z) :
  (0 * 256 + to_u8 (Z.land (Z.shiftr v 8) 0x01)) * 256
  + to_u8 (Z.land v 0xff) = v mod 2 ^ 9.
Proof.
  change 0x01 with (Z.ones 1). change 0xff with (Z.ones 8).
  rewrite !Z.land_ones, !Z.shiftr_div_pow2 by lia.
  change (2 ^ 1) with 2. change (2 ^ 9) with 512. wrap_lia.
Qed.

Lemma field_18_bits (v : Z) :
  ((0 * 256 + to_u8 (Z.land (Z.shiftr v 16) 0x03)) * 256
   + to_u8 (Z.shiftr v 8)) * 256 + to_u8 (Z.land v 0xff) = v mod 2 ^ 18.
Proof.
  change 0x03 with (Z.ones 2). change 0xff with (Z.ones 8).
  rewrite !Z.land_ones, !Z.shiftr_div_pow2 by lia.
  change (2 ^ 2) with 4. change (2 ^ 18) with 262144.
  change (2 ^ 16) with 65536. wrap_lia.
Qed.

Lemma field_28_bits (v : Z) :
  (((0 * 256 + to_u8 (Z.land (Z.shiftr v 24) 0x0f)) * 256
    + to_u8 (Z.shiftr v 16)) * 256
   + to_u8 (Z.shiftr v 8)) * 256 + to_u8 (Z.land v 0xff) = v mod 2 ^ 28.
Proof.
  change 0x0f with (Z.ones 4). change 0xff with (Z.ones 8).
  rewrite !Z.land_ones, !Z.shiftr_div_pow2 by lia.
  change (2 ^ 4) with 16. change (2 ^ 28) with 268435456.
  change (2 ^ 24) with 16777216. change (2 ^ 16) with 65536. wrap_lia.
Qed.

Lemma field_17_bits (v : Z) :
  ((0 * 256 + to_u8 (Z.land (Z.shiftr v 16) 0x1)) * 256
   + to_u8 (Z.shiftr v 8)) * 256 + to_u8 (Z.land v 0xff) = v mod 2 ^ 17.
Proof.
  change 0x1 with (Z.ones 1). change 0xff with (Z.ones 8).
  rewrite !Z.land_ones, !Z.shiftr_div_pow2 by lia.
  change (2 ^ 1) with 2. change (2 ^ 17) with 131072.
  change (2 ^ 16) with 65536. wrap_lia.
Qed.

(** looks the last write to [a] up in a log that fits a known pattern *)
Ltac lookup_last Hfit a :=
  let H := fresh "Hlast" in
  pose proof (fits_last_write _ _ a Hfit) as H;
  cbn -[to_u8 Z.land Z.shiftr] in H;
  rewrite H; clear H.

(** the fields of completed settings that always fit their registers *)
Lemma settings_fields_fit (freq_in freq_out : Z) (s : idt_settings) :
  idt_cal_settings freq_in freq_out = Ok s ->
  0 <= m1_x s < 2 ^ 24 /\ 0 <= dsm_int s < 2 ^ 9
  /\ 0 <= nfrac_qx s < 2 ^ 28.
Proof.
  intros Hs.
  destruct (idt_cal_settings_ok _ _ _ Hs)
    as (divtbl & ns1 & st & m & p & los & _ & _ & Hscan & Hm & Hp & _ & ->).
  cbn [m1_x dsm_int nfrac_qx].
  apply feedback_scan_post in Hscan. unfold scan_post in Hscan.
  rewrite Hp, Hm in Hscan.
  destruct Hscan as (_ & m1 & e & _ & HM & Hdef & _).
  injection Hdef as ->. unfold IDT_8T49N24X_M_MAX in HM.
  change (2 ^ 24) with 16777216. change (2 ^ 9) with 512.
  change (2 ^ 28) with 268435456.
  rewrite (to_int_small m1), (to_u32_small m1) by lia.
  split; [lia|]. split.
  - pose proof (to_u32_range (freq_out * max_div_of divtbl)) as Hr.
    destruct (upper_fb_split_crystal _ Hr) as (Hi & _ & Hb).
    rewrite Hi. split; [apply Z.div_pos; lia | lia].
  - unfold outdiv_split.
    destruct (Z.land (max_div_of divtbl) 1 =? 0); cbn [snd]; [lia|].
    change (Z.shiftr 268435456 1) with 134217728. lia.
Qed.

(** X12: the registers [set_clock] has written hold the settings: read back
    from the write log, most significant byte first, each field is the
    setting reduced to the width of its register field (21, 24, 9, 21, 18,
    28 and 17 bits); the multiplier, the DSM integer and the output-divider
    fraction always fit and come back unchanged. *)
Theorem registers_hold_settings
    (bus : regmap) (freq_in freq_out ret : Z) (log : list reg_write) :
  set_clock bus freq_in freq_out = Ok (ret, log) ->
  exists s,
    idt_cal_settings (to_int freq_in) (to_int freq_out) = Ok s
    /\ read_field log [0x000b; 0x000c; 0x000d] = Some (pre_x s mod 2 ^ 21)
    /\ read_field log [0x000e; 0x000f; 0x0010] = Some (pre_x s mod 2 ^ 21)
    /\ read_field log [0x0014; 0x0015; 0x0016] = Some (m1_x s)
    /\ read_field log [0x0011; 0x0012; 0x0013] = Some (m1_x s)
    /\ read_field log [0x0025; 0x0026] = Some (dsm_int s)
    /\ read_field log [0x0028; 0x0029; 0x002a] = Some (dsm_frac s mod 2 ^ 21)
    /\ read_field log [0x0045; 0x0046; 0x0047] = Some (n_qx s mod 2 ^ 18)
    /\ read_field log [0x0048; 0x0049; 0x004a] = Some (n_qx s mod 2 ^ 18)
    /\ read_field log [0x005b; 0x005c; 0x005d; 0x005e] = Some (nfrac_qx s)
    /\ read_field log [0x005f; 0x0060; 0x0061; 0x0062] = Some (nfrac_qx s)
    /\ read_field log [0x0071; 0x0072; 0x0073] = Some (los_x s mod 2 ^ 17)
    /\ read_field log [0x0074; 0x0075; 0x0076] = Some (los_x s mod 2 ^ 17).
Proof.
  intros Hrun.
  destruct (set_clock_ok_settings bus _ _ _ _ Hrun) as [s Hs].
  destruct (set_clock_program_emits bus _ _ _ Hs) as (ws & w & Hprog & Hfit).
  rewrite set_clock_runs_program, Hprog in Hrun.
  injection Hrun as _ <-.
  destruct (settings_fields_fit _ _ _ Hs) as (Hm1 & Hint & Hfrac).
  exists s. split; [exact Hs|].
  unfold read_field. cbn [fold_left].
  repeat split.
  - lookup_last Hfit 0x000b. lookup_last Hfit 0x000c.
    lookup_last Hfit 0x000d. f_equal. apply field_21_bits.
  - lookup_last Hfit 0x000e. lookup_last Hfit 0x000f.
    lookup_last Hfit 0x0010. f_equal. apply field_21_bits.
  - lookup_last Hfit 0x0014. lookup_last Hfit 0x0015.
    lookup_last Hfit 0x0016. f_equal.
    rewrite field_24_bits. apply Z.mod_small. exact Hm1.
  - lookup_last Hfit 0x0011. lookup_last Hfit 0x0012.
    lookup_last Hfit 0x0013. f_equal.
    rewrite field_24_bits. apply Z.mod_small. exact Hm1.
  - lookup_last Hfit 0x0025. lookup_last Hfit 0x0026. f_equal.
    rewrite field_9_bits. apply Z.mod_small. exact Hint.
  - lookup_last Hfit 0x0028. lookup_last Hfit 0x0029.
    lookup_last Hfit 0x002a. f_equal. apply field_21_bits.
  - lookup_last Hfit 0x0045. lookup_last Hfit 0x0046.
    lookup_last Hfit 0x0047. f_equal. apply field_18_bits.
  - lookup_last Hfit 0x0048. lookup_last Hfit 0x0049.
    lookup_last Hfit 0x004a. f_equal. apply field_18_bits.
  - lookup_last Hfit 0x005b. lookup_last Hfit 0x005c.
    lookup_last Hfit 0x005d. lookup_last Hfit 0x005e. f_equal.
    rewrite field_28_bits. apply Z.mod_small. exact Hfrac.
  - lookup_last Hfit 0x005f. lookup_last Hfit 0x0060.
    lookup_last Hfit 0x0061. lookup_last Hfit 0x0062. f_equal.
    rewrite field_28_bits. apply Z.mod_small. exact Hfrac.
  - lookup_last Hfit 0x0071. lookup_last Hfit 0x0072.
    lookup_last Hfit 0x0073. f_equal. apply field_17_bits.
  - lookup_last Hfit 0x0074. lookup_last Hfit 0x0075.
    lookup_last Hfit 0x0076. f_equal. apply field_17_bits.
Qed.

Lemma registers_hold_settings_witness :
  exists ret log,
    set_clock quiet_bus 40000000 148500000 = Ok (ret, log)
    /\ exists s,
         idt_cal_settings (to_int 40000000) (to_int 148500000) = Ok s
         /\ read_field log [0x000b; 0x000c; 0x000d] = Some (pre_x s mod 2 ^ 21)
         /\ read_field log [0x000e; 0x000f; 0x0010] = Some (pre_x s mod 2 ^ 21)
         /\ read_field log [0x0014; 0x0015; 0x0016] = Some (m1_x s)
         /\ read_field log [0x0011; 0x0012; 0x0013] = Some (m1_x s)
         /\ read_field log [0x0025; 0x0026] = Some (dsm_int s)
         /\ read_field log [0x0028; 0x0029; 0x002a]
            = Some (dsm_frac s mod 2 ^ 21)
         /\ read_field log [0x0045; 0x0046; 0x0047] = Some (n_qx s mod 2 ^ 18)
         /\ read_field log [0x0048; 0x0049; 0x004a] = Some (n_qx s mod 2 ^ 18)
         /\ read_field log [0x005b; 0x005c; 0x005d; 0x005e]
            = Some (nfrac_qx s)
         /\ read_field log [0x005f; 0x0060; 0x0061; 0x0062]
            = Some (nfrac_qx s)
         /\ read_field log [0x0071; 0x0072; 0x0073] = Some (los_x s mod 2 ^ 17)
         /\ read_field log [0x0074; 0x0075; 0x0076]
            = Some (los_x s mod 2 ^ 17).
Proof.
  eexists. eexists. split; [vm_compute; reflexivity|].
  eapply (registers_hold_settings quiet_bus 40000000 148500000).
  vm_compute. reflexivity.
Defined.

(** ** Read-modify-write *)

(** bit [k] of the byte a read-modify-write stores *)
Lemma masked_update_bit (data val mask k : Z) :
  0 <= k < 8 ->
  Z.testbit (to_u8 (Z.lor (Z.land data (Z.lnot mask)) (Z.land val mask))) k
  = if Z.testbit mask k then Z.testbit val k else Z.testbit data k.
Proof.
  intros Hk. unfold to_u8.
  rewrite Z.mod_pow2_bits_low by lia.
  rewrite Z.lor_spec, !Z.land_spec, Z.lnot_spec by lia.
  destruct (Z.testbit mask k), (Z.testbit val k), (Z.testbit data k);
    reflexivity.
Qed.

(** X14: [idt_modify_reg] issues one write to [addr]; in the byte it writes
    the bits selected by [mask] come from [val] and the others from the
    value just read from the register; bits above the low eight of the
    value read are dropped. *)
Theorem modify_reg_updates_masked_bits
    (bus : regmap) (addr val mask : Z) (log : list reg_write) :
  exists written,
    idt_modify_reg bus addr val mask log
    = Ok (regmap_write bus log (to_u16 addr) written,
          log ++ [(to_u16 addr, written)])
    /\ 0 <= written < 256
    /\ forall k, 0 <= k < 8 ->
         Z.testbit written k
         = if Z.testbit mask k then Z.testbit val k
           else Z.testbit (regmap_read bus log (to_u16 addr)) k.
Proof.
  eexists. split; [reflexivity|]. split.
  - unfold to_u8. change (2 ^ 8) with 256. apply Z.mod_pos_bound. lia.
  - intros k Hk. apply masked_update_bit. exact Hk.
Qed.

(** ** The mode register *)

Lemma last_write_app (l1 l2 : list reg_write) (addr : Z) :
  last_write (l1 ++ l2) addr
  = match last_write l2 addr with
    | Some v => Some v
    | None => last_write l1 addr
    end.
Proof.
  induction l1 as [|w l1 IH]; cbn [app last_write].
  - destruct (last_write l2 addr); reflexivity.
  - rewrite IH. destruct (last_write l2 addr); reflexivity.
Qed.

Lemma register_file_reads_back (init : Z -> Z) (l : list reg_write)
    (addr v : Z) :
  regmap_read (register_file init) (l ++ [(addr, v)]) addr = v.
Proof.
  cbn [regmap_read register_file]. rewrite last_write_app.
  cbn [last_write fst snd]. rewrite Z.eqb_refl. reflexivity.
Qed.

Lemma io_bind_ok {A B : Type} (m : io A) (k : A -> io B)
    (log log' : list reg_write) (a : A) :
  m log = Ok (a, log') -> io_bind m k log = k a log'.
Proof. intros H. unfold io_bind. rewrite H. reflexivity. Qed.

Lemma idt_ref_input_run (bus : regmap) (input : Z) (log : list reg_write) :
  let bit := Z.shiftl 1 (if input =? 1 then 5 else 4) in
  idt_ref_input bus input false log
  = Ok (regmap_write bus log 0x000a
          (to_u8 (Z.lor (Z.land (regmap_read bus log 0x000a) (Z.lnot bit))
                        (Z.land bit bit))),
        log ++ [(0x000a,
                 to_u8 (Z.lor (Z.land (regmap_read bus log 0x000a) (Z.lnot bit))
                              (Z.land bit bit)))]).
Proof. reflexivity. Qed.

Lemma idt_set_mode_run (bus : regmap) (log : list reg_write) :
  let v := to_u8 (Z.lor (Z.land (regmap_read bus log 0x000a) (Z.lnot 0x33))
                        (Z.land 0x31 0x33)) in
  let log1 := log ++ [(0x000a, v)] in
  let v' := to_u8 (Z.lor (Z.land (regmap_read bus log1 0x0069) (Z.lnot 0x08))
                         (Z.land 0x08 0x08)) in
  idt_set_mode bus true log
  = Ok (regmap_write bus log1 0x0069 v', log1 ++ [(0x0069, v')]).
Proof. reflexivity. Qed.

(** the log after the mode writes, and what the rest of the program adds *)
Lemma set_clock_mode_writes
    (bus : regmap) (freq_in freq_out ret : Z) (log : list reg_write) :
  set_clock bus freq_in freq_out = Ok (ret, log) ->
  exists s tail,
    let d0 := regmap_read bus [(0x0070, 0x05)] 0x000a in
    let v1 := to_u8 (Z.lor (Z.land d0 (Z.lnot 0x10)) (Z.land 0x10 0x10)) in
    let log1 := [(0x0070, 0x05); (0x000a, v1)] in
    let v2 := to_u8 (Z.lor (Z.land (regmap_read bus log1 0x000a) (Z.lnot 0x20))
                           (Z.land 0x20 0x20)) in
    let log2 := log1 ++ [(0x000a, v2)] in
    let v3 := to_u8 (Z.lor (Z.land (regmap_read bus log2 0x000a) (Z.lnot 0x33))
                           (Z.land 0x31 0x33)) in
    let log3 := log2 ++ [(0x000a, v3)] in
    let v4 := to_u8 (Z.lor (Z.land (regmap_read bus log3 0x0069) (Z.lnot 0x08))
                           (Z.land 0x08 0x08)) in
    idt_cal_settings (to_int freq_in) (to_int freq_out) = Ok s
    /\ log = (log3 ++ [(0x0069, v4)]) ++ tail
    /\ Forall2 fits tail
         (skipn 4 (programming_pattern s) ++ [(0x0070, Some 0x00)]).
Proof.
  intros Hrun.
  destruct (set_clock_ok_settings bus _ _ _ _ Hrun) as [s Hs].
  rewrite set_clock_runs_program in Hrun.
  unfold set_clock_program, io_bind at 1, io_lift in Hrun. rewrite Hs in Hrun.
  rewrite (io_bind_ok _ _ [] _ _ eq_refl) in Hrun.
  rewrite (io_bind_ok _ _ _ _ _ (idt_ref_input_run bus 0 _)) in Hrun.
  rewrite (io_bind_ok _ _ _ _ _ (idt_ref_input_run bus 1 _)) in Hrun.
  rewrite (io_bind_ok _ _ _ _ _ (idt_set_mode_run bus _)) in Hrun.
  match type of Hrun with
  | ?m ?l = _ =>
      assert (Hm : emits bus m
                (skipn 4 (programming_pattern s) ++ [(0x0070, Some 0x00)]))
  end.
  { unfold idt_pre_div, idt_m1_feedback, idt_dsm_int, idt_dsm_frac,
      idt_outdiv_int, idt_outdiv_frac, idt_in_monitor_ctrl.
    change (outdiv_int_addr 2) with (Some 0x0045).
    change (outdiv_int_addr 3) with (Some 0x0048).
    change (outdiv_frac_addr 2) with (Some 0x005b).
    change (outdiv_frac_addr 3) with (Some 0x005f).
    unfold of_option.
    eapply emits_as; [emits_chain | reflexivity]. }
  match type of Hrun with
  | ?m ?l = _ => destruct (Hm l) as (ws & w & Hrest & Hfit)
  end.
  rewrite Hrest in Hrun. injection Hrun as _ <-.
  exists s, (ws ++ [w]). cbv zeta. split; [exact Hs|].
  split; [reflexivity | exact Hfit].
Qed.

(** X13: on a device where a read of register 0x000a straight after a write
    to it returns the value written, [set_clock] leaves 0x000a with bits 0,
    4 and 5 set and bit 1 clear (free-run, both reference inputs disabled)
    and the other four bits as they were read at the start; the value it
    writes to 0x0069 has bit 3 (synthesizer mode) set. *)
Theorem mode_registers_after_set_clock
    (bus : regmap) (freq_in freq_out ret : Z) (log : list reg_write) :
  (forall l v, regmap_read bus (l ++ [(0x000a, v)]) 0x000a = v) ->
  set_clock bus freq_in freq_out = Ok (ret, log) ->
  exists v v',
    last_write log 0x000a = Some v
    /\ last_write log 0x0069 = Some v'
    /\ (forall k, 0 <= k < 8 ->
          Z.testbit v k
          = if Z.testbit 0x33 k then Z.testbit 0x31 k
            else Z.testbit (regmap_read bus [(0x0070, 0x05)] 0x000a) k)
    /\ Z.testbit v' 3 = true.
Proof.
  intros Hrb Hrun.
  destruct (set_clock_mode_writes bus _ _ _ _ Hrun) as (s & tail & Hlog).
  cbv zeta in Hlog. destruct Hlog as (_ & -> & Hfit).
  pose proof (fits_last_write _ _ 0x000a Hfit) as Ha.
  pose proof (fits_last_write _ _ 0x0069 Hfit) as H69.
  cbn -[to_u8 Z.land Z.shiftr] in Ha, H69.
  pose proof (Hrb [(0x0070, 0x05)]) as Hrb1. cbn [app] in Hrb1.
  rewrite Hrb1, Hrb.
  eexists. eexists.
  rewrite !last_write_app, Ha, H69. cbn [last_write app fst snd].
  change (0x000a =? 0x000a) with true. change (0x0069 =? 0x0069) with true.
  change (0x0069 =? 0x000a) with false. change (0x000a =? 0x0069) with false.
  cbv iota.
  split; [reflexivity|]. split; [reflexivity|]. split.
  - intros k Hk. rewrite !masked_update_bit by exact Hk.
    assert (Hcase : k = 0 \/ k = 1 \/ k = 2 \/ k = 3 \/ k = 4 \/ k = 5
                    \/ k = 6 \/ k = 7) by lia.
    destruct Hcase as [-> | [-> | [-> | [-> | [-> | [-> | [-> | ->]]]]]]];
      reflexivity.
  - apply (masked_update_bit _ 0x08 0x08 3). lia.
Qed.

Lemma mode_registers_after_set_clock_witness :
  exists ret log v v',
    set_clock (register_file (fun _ => 0xCE)) 40000000 148500000
      = Ok (ret, log)
    /\ last_write log 0x000a = Some v
    /\ last_write log 0x0069 = Some v'
    /\ (forall k, 0 <= k < 8 ->
          Z.testbit v k
          = if Z.testbit 0x33 k then Z.testbit 0x31 k
            else Z.testbit (regmap_read (register_file (fun _ => 0xCE))
                              [(0x0070, 0x05)] 0x000a) k)
    /\ Z.testbit v' 3 = true.
Proof.
  destruct (mode_registers_after_set_clock
              (register_file (fun _ => 0xCE)) 40000000 148500000 0
              (snd (match set_clock (register_file (fun _ => 0xCE))
                            40000000 148500000 with
                    | Ok r => r
                    | Fault _ => (0, [])
                    end)))
    as (v & v' & H).
  - intros l v. apply (register_file_reads_back (fun _ => 0xCE) l 0x000a v).
  - vm_compute. reflexivity.
  - eexists. eexists. exists v, v'. split; [vm_compute; reflexivity|].
    exact H.
Defined.

(** ** Write statuses and the values written *)

Lemma fits_determined (l1 l2 : list reg_write) (pat : list write_pattern) :
  Forall (fun p => snd p <> None) pat ->
  Forall2 fits l1 pat -> Forall2 fits l2 pat -> l1 = l2.
Proof.
  intros Hsome H1. revert l2.
  induction H1 as [|w1 p l1 pat Hw1 _ IH]; intros l2 H2;
    inversion H2 as [|w2 p' l2' pat' Hw2 Hrest]; subst; [reflexivity|].
  inversion Hsome as [|p0 pat0 Hp Hpat]; subst.
  destruct p as [a [v|]]; [|contradiction Hp; reflexivity].
  apply fits_exact in Hw1. apply fits_exact in Hw2. subst w1 w2.
  f_equal. apply IH; assumption.
Qed.

(** X19: what [set_clock] writes does not depend on the statuses the writes
    return: two devices that answer every read alike get the same write
    log, whatever each of them answers to the writes. *)
Theorem written_values_ignore_statuses
    (bus1 bus2 : regmap) (freq_in freq_out ret1 : Z) (log : list reg_write) :
  (forall l addr, regmap_read bus1 l addr = regmap_read bus2 l addr) ->
  set_clock bus1 freq_in freq_out = Ok (ret1, log) ->
  exists ret2, set_clock bus2 freq_in freq_out = Ok (ret2, log).
Proof.
  intros Hread Hrun1.
  destruct (set_clock_mode_writes bus1 _ _ _ _ Hrun1) as (s & tail1 & Hlog1).
  cbv zeta in Hlog1. destruct Hlog1 as (Hs & -> & Hfit1).
  destruct (set_clock_program_emits bus2 _ _ _ Hs) as (ws & w & Hprog & _).
  rewrite <- set_clock_runs_program in Hprog.
  destruct (set_clock_mode_writes bus2 _ _ _ _ Hprog) as (s' & tail2 & Hlog2).
  cbv zeta in Hlog2. destruct Hlog2 as (Hs' & Hlog2 & Hfit2).
  rewrite Hs in Hs'. injection Hs' as <-.
  eexists. rewrite Hprog. f_equal. f_equal. rewrite Hlog2.
  rewrite !Hread.
  f_equal.
  assert (Hall : Forall (fun p : write_pattern => snd p <> None)
                   (skipn 4 (programming_pattern s) ++ [(0x0070, Some 0x00)])).
  { cbn -[to_u8 Z.land Z.shiftr]. repeat constructor; discriminate. }
  apply (fits_determined _ _ _ Hall Hfit2 Hfit1).
Qed.

Lemma written_values_ignore_statuses_witness :
  exists ret1 ret2 log,
    set_clock quiet_bus 40000000 148500000 = Ok (ret1, log)
    /\ set_clock flaky_bus 40000000 148500000 = Ok (ret2, log).
Proof.
  destruct (written_values_ignore_statuses quiet_bus flaky_bus
              40000000 148500000 0
              (snd (match set_clock quiet_bus 40000000 148500000 with
                    | Ok r => r
                    | Fault _ => (0, [])
                    end)))
    as (ret2 & H2).
  - intros l addr. reflexivity.
  - vm_compute. reflexivity.
  - eexists. exists ret2. eexists. split; [vm_compute; reflexivity|].
    exact H2.
Defined.

(** ** [idt_init] *)

(** the writes of the loop do not depend on the log it starts from *)
Lemma idt_init_loop_appends (bus : regmap) (fuel : nat) (Index : Z) :
  exists ws, forall log, idt_init_loop bus fuel Index log = Ok (0, log ++ ws).
Proof.
  revert Index. induction fuel as [|fuel IH]; intros Index; cbn [idt_init_loop].
  - exists []. intros log. rewrite app_nil_r. reflexivity.
  - destruct (Index <? Z.of_nat (length IDT_8T49N24x_Config_JA)).
    + destruct (IH (Index + 1)) as [ws Hws].
      destruct (negb (Index =? 0x070)).
      * eexists. intros log. unfold io_bind, idt_write_reg.
        rewrite Hws, <- app_assoc. reflexivity.
      * exists ws. exact Hws.
    + exists []. intros log. rewrite app_nil_r. reflexivity.
Qed.

Lemma idt_init_appends (bus : regmap) :
  exists ws, forall log, idt_init bus log = Ok (0, log ++ ws).
Proof.
  destruct (idt_init_loop_appends bus (length IDT_8T49N24x_Config_JA) 8)
    as [ws Hws].
  eexists. intros log. unfold idt_init, io_bind, idt_write_reg, io_ret.
  rewrite Hws, <- !app_assoc. reflexivity.
Qed.

(** X15: whatever the device answers, [idt_init] returns 0 and issues the
    same 125 writes: 0x05 to 0x0070, then each byte of the configuration
    table from address 8 to 131 to the register of its address, except the
    byte for 0x0070, then 0x00 to 0x0070.  The registers 0 to 7 are never
    written. *)
Theorem idt_init_writes (bus : regmap) (log : list reg_write) :
  idt_init bus log
  = Ok (0, log ++ (0x0070, 0x05) :: config_writes ++ [(0x0070, 0x00)])
  /\ length config_writes = 123%nat
  /\ ~ In 0x0070 (map fst config_writes)
  /\ Forall (fun w => 8 <= fst w < 132
                      /\ snd w = nth (Z.to_nat (fst w))
                                     IDT_8T49N24x_Config_JA 0
                      /\ 0 <= snd w < 256) config_writes.
Proof.
  split; [|split; [|split]].
  - destruct (idt_init_appends bus) as [ws Hws].
    assert (Hnil : idt_init bus []
                   = Ok (0, (0x0070, 0x05) :: config_writes
                            ++ [(0x0070, 0x00)]))
      by (vm_compute; reflexivity).
    rewrite Hws in Hnil. cbn [app] in Hnil. injection Hnil as ->.
    apply Hws.
  - reflexivity.
  - vm_compute. intros H.
    repeat (destruct H as [H|H]; [discriminate H|]). exact H.
  - vm_compute. repeat constructor; discriminate.
Qed.

(** * Further properties of the lower-loop search *)

(** ** A multiplier that was rounded up *)

(** X17: when the multiplier of a pass was rounded up, the unsigned
    difference [fvco*i - m1*freq_in] wraps in 64 bits, so the error the pass
    computes is not the magnitude of the deviation: it is the low 32 bits,
    read as a signed [int], of
    [(2^64 - (m1*freq_in - fvco*i) * 1000000) / (i*freq_in / 1000)]. *)
Theorem rounded_up_error_wraps (fvco freq_in i m1 : Z) :
  0 <= fvco < 4294967296 ->
  0 < freq_in < 2147483648 ->
  0 < i <= IDT_8T49N24X_P_MAX ->
  1000 <= i * freq_in ->
  scan_m1 fvco freq_in i = Ok m1 ->
  fvco * i < m1 * freq_in ->
  scan_error_tmp fvco freq_in i m1
  = Ok (to_int ((2 ^ 64 - (m1 * freq_in - fvco * i) * 1000000)
                / (i * freq_in / 1000))).
Proof.
  unfold IDT_8T49N24X_P_MAX. intros Hf Hin Hi Hprod Hm1 Hup.
  rewrite scan_m1_exact in Hm1 by (unfold IDT_8T49N24X_P_MAX; lia).
  injection Hm1 as Hdef.
  assert (Hhalf : 0 <= freq_in / 2 < 2147483648)
    by (Z.to_euclidean_division_equations; lia).
  assert (Hprodb : 0 <= fvco * i < 18014398509481984) by nia.
  assert (Hlow : m1 * freq_in <= fvco * i + freq_in / 2).
  { rewrite <- Hdef. rewrite Z.mul_comm. apply Z.mul_div_le. lia. }
  assert (Ht1 : 1 <= i * freq_in / 1000)
    by (Z.to_euclidean_division_equations; lia).
  unfold scan_error_tmp.
  rewrite (to_u64_small i) by lia.
  rewrite (to_u64_small freq_in) by lia.
  rewrite (to_u64_small (fvco * i)) by lia.
  rewrite (to_u64_small (m1 * freq_in)) by lia.
  rewrite (to_u64_small (i * freq_in)) by nia.
  destruct (Z.eqb_spec (i * freq_in / 1000) 0) as [H0|_]; [lia|].
  set (d := m1 * freq_in - fvco * i) in *.
  assert (Hd : 0 < d <= 1073741824)
    by (subst d; Z.to_euclidean_division_equations; lia).
  replace (fvco * i - m1 * freq_in) with (- d) by (subst d; lia).
  replace (to_u64 (to_u64 (- d) * 1000000))
    with (2 ^ 64 - d * 1000000); [reflexivity|].
  change (2 ^ 64) with 18446744073709551616. wrap_lia.
Qed.

Lemma rounded_up_error_wraps_witness :
  scan_m1 3564000000 40000000 315 = Ok 28067
  /\ scan_error_tmp 3564000000 40000000 315 28067
     = Ok (to_int ((2 ^ 64 - (28067 * 40000000 - 3564000000 * 315) * 1000000)
                   / (315 * 40000000 / 1000))).
Proof.
  split; [vm_compute; reflexivity|].
  apply (rounded_up_error_wraps 3564000000 40000000 315 28067);
    [ lia | lia | unfold IDT_8T49N24X_P_MAX; lia | lia
    | vm_compute; reflexivity | lia ].
Defined.

(** ** Faults of the settings calculation *)

Lemma scan_body_runs (fvco freq_in i : Z) (st : scan_state) :
  0 <= fvco < 4294967296 ->
  1000 <= freq_in < 2147483648 ->
  1 <= i <= IDT_8T49N24X_P_MAX ->
  exists next, scan_body fvco freq_in i st = Ok next.
Proof.
  intros Hf Hin Hi. unfold scan_body.
  rewrite scan_m1_exact by lia. cbn [bind].
  destruct (_ <? IDT_8T49N24X_M_MAX); [|eexists; reflexivity].
  unfold scan_error_tmp. unfold IDT_8T49N24X_P_MAX in Hi.
  rewrite (to_u64_small i), (to_u64_small freq_in) by lia.
  rewrite (to_u64_small (i * freq_in)) by nia.
  assert (Ht1 : 1 <= i * freq_in / 1000).
  { assert (1000 <= i * freq_in) by nia.
    Z.to_euclidean_division_equations; lia. }
  destruct (Z.eqb_spec (i * freq_in / 1000) 0) as [H0|_]; [lia|].
  cbn [bind].
  destruct ((_ <? error st) || _); [destruct (_ =? 0)|]; eexists; reflexivity.
Qed.

Lemma scan_loop_runs (fuel : nat) (fvco freq_in i : Z) (st : scan_state) :
  0 <= fvco < 4294967296 ->
  1000 <= freq_in < 2147483648 ->
  1 <= i ->
  exists st', scan_loop fuel fvco freq_in i st = Ok st'.
Proof.
  intros Hf Hin. revert i st.
  induction fuel as [|fuel IH]; intros i st Hi; cbn [scan_loop].
  - eexists. reflexivity.
  - destruct (Z.leb_spec i IDT_8T49N24X_P_MAX); [|eexists; reflexivity].
    destruct (scan_body_runs fvco freq_in i st Hf Hin ltac:(lia))
      as [next ->].
    cbn [bind]. destruct next as [st1|st1]; [|eexists; reflexivity].
    apply IH. lia.
Qed.

(** X20: for a reference of 128 kHz or more and a target of 50 MHz or more
    [idt_cal_settings] neither divides by zero nor overruns [divtbl]: it
    returns settings, unless the search recorded no pair and [m1_default]
    and [p_default] are read unassigned. *)
Theorem cal_settings_faults (freq_in freq_out : Z) :
  128000 <= freq_in < 2147483648 ->
  50000000 <= freq_out < 2147483648 ->
  (exists s, idt_cal_settings freq_in freq_out = Ok s)
  \/ idt_cal_settings freq_in freq_out = Fault UninitialisedRead.
Proof.
  intros Hin Hout.
  pose proof (ns2_range_width freq_out Hout) as Hw.
  assert (Htbl : exists divtbl,
             idt_get_int_divtable freq_out false = Ok divtbl
             /\ (length divtbl <= 18)%nat).
  { unfold idt_get_int_divtable.
    destruct (Z.eqb_spec freq_out 0); [lia|].
    destruct (ns2_range freq_out 1) as [lo hi]. cbn [fst snd] in Hw.
    eexists. split; [reflexivity|].
    pose proof (divtable_loop_length (Z.to_nat (hi + 1 - lo)) freq_out lo hi
                  (skipn 1 ns1_opts)) as Hlen.
    cbn [skipn ns1_opts length] in Hlen. cbn [skipn ns1_opts]. lia. }
  destruct Htbl as (divtbl & Htbl & Hlen).
  unfold idt_cal_settings. rewrite Htbl. cbn [bind].
  destruct (Z.ltb_spec 20 (Z.of_nat (length divtbl))); [lia|].
  destruct (ns1_select (max_div_of divtbl)) as [ns1|];
    [|right; reflexivity].
  cbn [of_option bind].
  destruct (outdiv_split (max_div_of divtbl)) as [n_q2 nfrac_q2].
  destruct (upper_fb_split _) as [d_int d_frac].
  pose proof (to_u32_range (freq_out * max_div_of divtbl)) as Hr.
  pose proof (p_min_of_range freq_in Hin) as Hp.
  destruct (scan_loop_runs
              (Z.to_nat (IDT_8T49N24X_P_MAX + 1 - p_min_of freq_in))
              (to_u32 (freq_out * max_div_of divtbl)) freq_in
              (p_min_of freq_in) scan_init Hr ltac:(lia) ltac:(lia))
    as [st Hscan].
  unfold feedback_scan. rewrite Hscan. cbn [bind].
  unfold los_of. rewrite (to_u32_small freq_in) by lia.
  destruct (Z.eqb_spec freq_in 0); [lia|]. cbn [bind].
  destruct (m1_default st); [|right; reflexivity].
  destruct (p_default st); [|right; reflexivity].
  left. eexists. reflexivity.
Qed.

Lemma cal_settings_faults_witness :
  (exists s, idt_cal_settings 40000000 148500000 = Ok s)
  \/ idt_cal_settings 40000000 148500000 = Fault UninitialisedRead.
Proof. apply (cal_settings_faults 40000000 148500000); lia. Defined.

(** X21: for a positive reference below 128 kHz the scan starts at the
    pre-divider 0, where [temp1 = i * freq_in / 1000] is 0: the first pass
    divides by zero. *)
Theorem small_reference_divides_by_zero (fvco freq_in : Z) :
  0 <= fvco < 4294967296 ->
  0 < freq_in < 128000 ->
  p_min_of freq_in = 0
  /\ feedback_scan fvco freq_in = Fault DivideByZero.
Proof.
  intros Hf Hin.
  assert (Hp0 : p_min_of freq_in = 0).
  { unfold p_min_of, IDT_8T49N24X_FPD_MAX. apply Z.quot_small. lia. }
  split; [exact Hp0|].
  destruct (feedback_scan_first_pass fvco freq_in ltac:(lia)) as [fuel ->].
  rewrite Hp0. unfold scan_body.
  rewrite scan_m1_exact by (unfold IDT_8T49N24X_P_MAX; lia).
  rewrite Z.mul_0_r, Z.add_0_l, Z.div_small
    by (Z.to_euclidean_division_equations; lia).
  cbn [bind]. change (0 <? IDT_8T49N24X_M_MAX) with true. cbv iota.
  unfold scan_error_tmp. change (to_u64 0) with 0.
  rewrite Z.mul_0_l. change (to_u64 0 / 1000) with 0.
  reflexivity.
Qed.

Lemma small_reference_divides_by_zero_witness :
  p_min_of 27000 = 0
  /\ feedback_scan 3564000000 27000 = Fault DivideByZero.
Proof. apply (small_reference_divides_by_zero 3564000000 27000); lia. Defined.

(** ** Witnesses for the bounds of the search *)

Lemma feedback_solution_bounds_witness :
  exists s,
    idt_cal_settings 40000000 148500000 = Ok s
    /\ 40000000 / 128000 <= pre_x s <= 2 ^ 22 /\ 0 <= m1_x s < 2 ^ 24.
Proof.
  eexists. split; [vm_compute; reflexivity|].
  eapply (feedback_solution_bounds 40000000 148500000).
  - lia.
  - vm_compute. reflexivity.
Defined.

Lemma scan_never_exhausted_witness :
  exists st m1,
    feedback_scan 3564000000 40000000 = Ok st
    /\ scan_m1 3564000000 40000000 (p_min_of 40000000) = Ok m1
    /\ 0 <= m1 < IDT_8T49N24X_M_MAX.
Proof.
  destruct (scan_never_exhausted 3564000000 40000000
              {| error := 0; m1_default := Some 28512;
                 p_default := Some 320 |})
    as (m1 & Hm1 & Hb).
  - lia.
  - lia.
  - vm_compute. reflexivity.
  - eexists. exists m1. split; [vm_compute; reflexivity|].
    split; assumption.
Defined.
